(** * tox: [src/tox/terminalwriter.py]

    A shallow embedding of [TerminalWriter] (its [fullwidth] property, [sep]
    and [write]) and of the small part of the Python runtime it leans on,
    followed by the properties of separator lines, line tracking, markup and
    the encoding fallbacks.

    Conventions.
    - Python 3 semantics ([py3k] and [py33] are true): [text] is [str], a
      sequence of code points; [bytes] is a sequence of octets.
    - Python integers are [Z]; [//] with a positive divisor is [Z.div].
    - A method that mutates [self] and may raise is a function from the
      object's state to the new state and an outcome: mutations made before
      an exception is raised stay visible, as in Python.
    - The constructor is not modelled: a writer is any value of the record
      [TerminalWriter], whatever sink, markup flag and line state it has. *)

From Stdlib Require Import ZArith NArith List String Ascii Bool Lia.
From Stdlib Require Import DecimalString.
From Stdlib Require Strings.Byte.
Import ListNotations.

Local Open Scope list_scope.
Local Open Scope Z_scope.

(** ** Python values *)

Abbreviation codepoint := N (only parsing).
Definition text := list codepoint.
Definition bytes := list Byte.byte.

(** A [str] literal made of ASCII characters. *)
Definition str (s : string) : text := map N_of_ascii (list_ascii_of_string s).

(** [len(s)] *)
Definition len {A : Type} (s : list A) : Z := Z.of_nat (List.length s).

(** [s * n]: repetition; a count below one gives the empty sequence. *)
Definition mul {A : Type} (s : list A) (n : Z) : list A :=
  List.concat (repeat s (Z.to_nat n)).

(** ['%s' % n] for an integer [n]. *)
Definition str_of_int (n : Z) : text := str (NilZero.string_of_int (Z.to_int n)).

(** [repr(name)] for a keyword-argument name: an identifier has nothing to
    escape, so its [repr] is the name between single quotes. *)
Definition repr (name : string) : string := ("'" ++ name ++ "'")%string.

(** The messages [write] works on: [text] or [bytes].  An object of another
    type is first replaced by [text(msg)]; the model starts from there. *)
Inductive message : Type :=
| Text (s : text)
| Bytes (b : bytes).

(** Truth value of a message: non-empty. *)
Definition truthy (msg : message) : bool :=
  match msg with
  | Text [] | Bytes [] => false
  | _ => true
  end.

(** The exceptions that occur in this module; [Exception] stands for any
    other class a sink may raise. *)
Inductive exn : Type :=
| UnicodeEncodeError
| ValueError (what : string)
| NameError (name : string)
| TypeError
| AttributeError
| LookupError
| ZeroDivisionError
| SysEx
| Exception (cls : string).

Inductive outcome (A : Type) : Type :=
| Returned (a : A)
| Raised (e : exn).
Arguments Returned {A} a.
Arguments Raised {A} e.

(** ** Stateful computations that may raise *)

Definition Py (S A : Type) : Type := S -> S * outcome A.

Definition ret {S A} (a : A) : Py S A := fun s => (s, Returned a).
Definition raise {S A} (e : exn) : Py S A := fun s => (s, Raised e).
Definition bind {S A B} (c : Py S A) (k : A -> Py S B) : Py S B :=
  fun s => match c s with
           | (s', Returned a) => k a s'
           | (s', Raised e) => (s', Raised e)
           end.
Definition lift {S A} (o : outcome A) : Py S A := fun s => (s, o).

Declare Scope py_scope.
Delimit Scope py_scope with py.
Notation "x <- c1 ;; c2" := (bind c1 (fun x => c2))
  (at level 61, c1 at next level, right associativity) : py_scope.
Notation "c1 ;; c2" := (bind c1 (fun _ => c2))
  (at level 61, right associativity) : py_scope.

(** ** Sequence helpers: [in], [rsplit], [rstrip] *)

Section Split.
Context {A : Type} (is_sep : A -> bool).

(** [sep in s] for a one-element separator. *)
Definition contains (s : list A) : bool := existsb is_sep s.

(** The cut at the last separator, when there is one. *)
Fixpoint rsplit_once (s : list A) : option (list A * list A) :=
  match s with
  | [] => None
  | c :: r =>
      match rsplit_once r with
      | Some (h, t) => Some (c :: h, t)
      | None => if is_sep c then Some ([], r) else None
      end
  end.

(** [s.rsplit(sep, 1)] *)
Definition rsplit1 (s : list A) : list (list A) :=
  match rsplit_once s with
  | Some (h, t) => [h; t]
  | None => [s]
  end.
End Split.

(** [l[-1]] on the non-empty list [rsplit] returns. *)
Definition last_item {A : Type} (l : list (list A)) : list A := last l [].

Definition is_newline (c : codepoint) : bool := (c =? 10)%N.
Definition is_newline_byte (b : Byte.byte) : bool := Byte.eqb b Byte.x0a.

(** Whitespace as [str.rstrip()] sees it (CPython's [Py_UNICODE_ISSPACE]). *)
Definition isspace (c : codepoint) : bool :=
  ((9 <=? c) && (c <=? 13) || (28 <=? c) && (c <=? 32) ||
   (c =? 133) || (c =? 160) || (c =? 5760) ||
   (8192 <=? c) && (c <=? 8202) || (c =? 8232) || (c =? 8233) ||
   (c =? 8239) || (c =? 8287) || (c =? 12288))%N.

(** [s.rstrip()] *)
Fixpoint rstrip (s : text) : text :=
  match s with
  | [] => []
  | c :: r =>
      match rstrip r with
      | [] => if isspace c then [] else [c]
      | r' => c :: r'
      end
  end.

(** A dict with string keys, as the literal lists it. *)
Fixpoint dict_lookup {V : Type} (d : list (string * V)) (k : string) : option V :=
  match d with
  | [] => None
  | (k', v) :: d' => if String.eqb k k' then Some v else dict_lookup d' k
  end.

(** [d.get(k, default)] *)
Definition dict_get {V : Type} (d : list (string * V)) (k : string) (default : V) : V :=
  match dict_lookup d k with
  | Some v => v
  | None => default
  end.

(** [sum(l)] *)
Definition sum (l : list Z) : Z := fold_left Z.add l 0.

(** ** The runtime outside the repository

    [unicodedata], the codecs and [int] are library code; the writer is
    verified against any implementation of them. *)
Class PyRuntime : Type := {
  (** [unicodedata.east_asian_width(c)]: the class code of [c]. *)
  east_asian_width : codepoint -> string;
  (** [unicodedata.normalize('NFC', s)] *)
  normalize_NFC : text -> text;
  (** [b.decode('utf-8', errors='replace')] *)
  decode_utf8_replace : bytes -> text;
  (** [s.encode(encoding)] *)
  encode : text -> string -> outcome bytes;
  (** [int(s)] for a [str] *)
  int : text -> outcome Z
}.

(** The sink: an object with [write], [flush] and an [encoding] attribute
    ([None] or a codec name). *)
Class File (F : Type) : Type := {
  file_write : message -> Py F unit;
  file_flush : Py F unit;
  file_encoding : F -> option string
}.

(** What the process sees of its surroundings. *)
Inductive size_query : Type :=
| Columns (columns : Z)   (* [shutil.get_terminal_size().columns] *)
| QueryFailed             (* the query raised an ordinary exception *)
| QuerySysEx.             (* it raised one of [py.builtin._sysex] *)

Record Environ : Type := {
  IS_WINDOWS : bool;
  terminal_size : size_query;
  COLUMNS : option text
}.

Definition try_ {S A} (c : Py S A) : Py S (outcome A) :=
  fun s => let (s', r) := c s in (s', Returned r).
Definition gets {S A} (f : S -> A) : Py S A := fun s => (s, Returned (f s)).
Definition modify {S} (f : S -> S) : Py S unit := fun s => (f s, Returned tt).

(** ** TerminalWriter *)

Record CurrentLine : Type := mkCurrentLine { chars : Z; width : Z }.

Record TerminalWriter (F : Type) : Type := mkTerminalWriter {
  _file : F;
  encoding : option string;
  hasmarkup : bool;
  _current_line : CurrentLine;
  _terminal_width : option Z   (* [None]: the attribute is not there *)
}.
Arguments mkTerminalWriter {F}.
Arguments _file {F}.
Arguments encoding {F}.
Arguments hasmarkup {F}.
Arguments _current_line {F}.
Arguments _terminal_width {F}.

Definition set_file {F} (f : F) (w : TerminalWriter F) : TerminalWriter F :=
  mkTerminalWriter f (encoding w) (hasmarkup w) (_current_line w) (_terminal_width w).
Definition set_current_line {F} (cl : CurrentLine) (w : TerminalWriter F) : TerminalWriter F :=
  mkTerminalWriter (_file w) (encoding w) (hasmarkup w) cl (_terminal_width w).

(** The [fullwidth] setter. *)
Definition set_fullwidth {F} (value : Z) (w : TerminalWriter F) : TerminalWriter F :=
  mkTerminalWriter (_file w) (encoding w) (hasmarkup w) (_current_line w) (Some value).

(** Keyword arguments [**kw]: names in call order, each with the truth value
    of its argument. *)
Definition kwargs := list (string * bool).

Definition char_width : list (string * Z) :=
  [("A", 1); ("F", 2); ("H", 1); ("N", 1); ("Na", 1); ("W", 2)]%string.

Definition _esctable : list (string * Z) :=
  [("black", 30); ("red", 31); ("green", 32); ("yellow", 33);
   ("blue", 34); ("purple", 35); ("cyan", 36); ("white", 37);
   ("Black", 40); ("Red", 41); ("Green", 42); ("Yellow", 43);
   ("Blue", 44); ("Purple", 45); ("Cyan", 46); ("White", 47);
   ("bold", 1); ("light", 2); ("blink", 5); ("invert", 7)]%string.

Definition ESC : codepoint := 27%N.
Definition newline : text := [10%N].

(** ['\x1b[%sm' % cod] *)
Definition esc_seq (cod : Z) : text := ESC :: str "[" ++ str_of_int cod ++ str "m".

(** The loop over [kw] that fills [esc]. *)
Fixpoint collect_esc (kw : kwargs) (esc : list Z) : outcome (list Z) :=
  match kw with
  | [] => Returned esc
  | (name, value) :: kw' =>
      match dict_lookup _esctable name with
      | None => Raised (ValueError ("unknown markup: " ++ repr name))
      | Some cod => collect_esc kw' (if value then esc ++ [cod] else esc)
      end
  end.

(** Lines 154-170 of [write]: the message with its markup. *)
Definition markup (hasmarkup : bool) (msg : message) (kw : kwargs) : outcome message :=
  match hasmarkup, kw with
  | true, _ :: _ =>
      match collect_esc kw [] with
      | Raised e => Raised e
      | Returned [] => Returned msg
      | Returned esc =>
          match msg with
          | Text s => Returned (Text (List.concat (map esc_seq esc) ++ s ++ ESC :: str "[0m"))
          | Bytes _ => Raised TypeError   (* [str + bytes] *)
          end
      end
  | _, _ => Returned msg
  end.

(** [newline in msg] *)
Definition has_newline (msg : message) : bool :=
  match msg with
  | Text s => contains is_newline s
  | Bytes b => contains is_newline_byte b
  end.

(** Lines 122-191 of the source, under a runtime and a sink. *)
Section Writer.
Context {R : PyRuntime} {F : Type} {file : File F}.

(** [msg.rsplit(newline, 1)[-1]], decoded when it is [bytes]. *)
Definition current_line_of (msg : message) : text :=
  match msg with
  | Text s => last_item (rsplit1 is_newline s)
  | Bytes b => decode_utf8_replace (last_item (rsplit1 is_newline_byte b))
  end.

(** The display width [write] computes for the current line. *)
Definition width_of (current_line : text) : Z :=
  sum (map (fun c => dict_get char_width (east_asian_width c) 1)
           (normalize_NFC current_line)).

(** Lines 127-152: the new value of [self._current_line]. *)
Definition update_current_line (msg : message) (cl : CurrentLine) : CurrentLine :=
  let current_line := current_line_of msg in
  let width' := width_of current_line in
  let length := len current_line in
  if has_newline msg
  then {| chars := length; width := width' |}
  else {| chars := chars cl + length; width := width cl + width' |}.

Definition on_file {A} (c : Py F A) : Py (TerminalWriter F) A :=
  fun w => let (f, r) := c (_file w) in (set_file f w, r).

(** [msg.encode(encoding)]; [bytes] has no [encode]. *)
Definition msg_encode (msg : message) (enc : string) : outcome bytes :=
  match msg with
  | Text s => encode s enc
  | Bytes _ => Raised AttributeError
  end.

(** Truth value of [self._file.encoding]. *)
Definition encoding_set (enc : option string) : option string :=
  match enc with
  | Some EmptyString | None => None
  | Some e => Some e
  end.

(** Lines 172-191: hand the message to the sink.  The last fallback reads
    the name [markupmsg], which nothing binds. *)
Definition emit (msg : message) : Py (TerminalWriter F) unit :=
  (r <- try_ (on_file (file_write msg)) ;;
   match r with
   | Returned _ => on_file file_flush
   | Raised UnicodeEncodeError =>
       enc <- gets (fun w => encoding_set (file_encoding (_file w))) ;;
       done <- match enc with
               | Some e =>
                   r' <- try_ (b <- lift (msg_encode msg e) ;;
                               on_file (file_write (Bytes b))) ;;
                   match r' with
                   | Returned _ => on_file file_flush ;; ret true
                   | Raised UnicodeEncodeError => ret false
                   | Raised x => raise x
                   end
               | None => ret false
               end ;;
       if done : bool then ret tt else raise (NameError "markupmsg")
   | Raised x => raise x
   end)%py.

(** [TerminalWriter.write] *)
Definition write (msg : message) (kw : kwargs) : Py (TerminalWriter F) unit :=
  if truthy msg then
    (modify (fun w => set_current_line (update_current_line msg (_current_line w)) w) ;;
     hm <- gets hasmarkup ;;
     msg' <- lift (markup hm msg kw) ;;
     emit msg')%py
  else ret tt.

Variable env : Environ.

(** The [fullwidth] getter. *)
Definition fullwidth (w : TerminalWriter F) : outcome Z :=
  match _terminal_width w with
  | Some value => Returned value
  | None =>
      match terminal_size env with
      | QuerySysEx => Raised SysEx
      | q =>
          let width := match q with Columns c => c | _ => 0 end in
          if width =? 0 then
            match COLUMNS env with
            | Some s => int s
            | None => Returned 80
            end
          else if width <? 40 then Returned 80
          else Returned width
      end
  end.

(** Lines 93-117 of [sep]: the line it builds from a resolved width. *)
Definition sep_line (sepchar : text) (title : option text) (fullwidth : Z)
  : outcome text :=
  let fullwidth := if IS_WINDOWS env then fullwidth - 1 else fullwidth in
  if len sepchar =? 0 then Raised ZeroDivisionError
  else
    let line :=
      match title with
      | Some title =>
          let N := Z.max ((fullwidth - len title - 2) / (2 * len sepchar)) 1 in
          let fill := mul sepchar N in
          fill ++ str " " ++ title ++ str " " ++ fill
      | None => mul sepchar (fullwidth / len sepchar)
      end in
    Returned (if len line + len (rstrip sepchar) <=? fullwidth
              then line ++ rstrip sepchar
              else line).

(** [TerminalWriter.sep] *)
Definition sep (sepchar : text) (title : option text) (fullwidth_arg : option Z)
           (kw : kwargs) : Py (TerminalWriter F) unit :=
  (fw <- match fullwidth_arg with
         | Some value => ret value
         | None => fun w => (w, fullwidth w)
         end ;;
   line <- lift (sep_line sepchar title fw) ;;
   write (Text line) kw ;;
   write (Text newline) [])%py.
End Writer.

(** A caller issuing [write] calls one after the other, going on whether a
    call returned or raised. *)
Fixpoint writes {R : PyRuntime} {F : Type} {file : File F}
    (calls : list (message * kwargs)) (w : TerminalWriter F) : TerminalWriter F :=
  match calls with
  | [] => w
  | (msg, kw) :: calls' => writes calls' (fst (write msg kw w))
  end.

(** ** Sample sinks and a sample runtime, to run the code on examples *)

Module Sample.

(** An in-memory text stream: keeps what it is given, in order; its
    [encoding] is [None]. *)
Definition recorder := list message.

#[export] Instance recorder_file : File recorder := {
  file_write msg := fun log => (log ++ [msg], Returned tt);
  file_flush := ret tt;
  file_encoding _ := None
}.

(** A text stream whose encoding is ascii, such as [sys.stdout] under the
    C locale: text outside ASCII cannot be encoded, and bytes are
    refused. *)
Definition is_ascii (s : text) : bool := forallb (fun c => c <? 128)%N s.

Record ascii_stream : Type := { written : list text }.

#[export] Instance ascii_file : File ascii_stream := {
  file_write msg := fun f =>
    match msg with
    | Text s => if is_ascii s
                then ({| written := written f ++ [s] |}, Returned tt)
                else (f, Raised UnicodeEncodeError)
    | Bytes _ => (f, Raised TypeError)
    end;
  file_flush := ret tt;
  file_encoding _ := Some "ascii"%string
}.

Definition byte_of (c : codepoint) : Byte.byte :=
  match Byte.of_N c with Some b => b | None => Byte.x3f end.

(** East Asian Width of the characters the examples draw from. *)
Definition sample_east_asian_width (c : codepoint) : string :=
  (if (32 <=? c) && (c <=? 126) then "Na"
   else if (19968 <=? c) && (c <=? 40959) then "W"      (* CJK unified ideographs *)
   else if (65281 <=? c) && (c <=? 65376) then "F"      (* fullwidth forms *)
   else if (c =? 161) || (c =? 225) || (c =? 233) then "A"
   else if (768 <=? c) && (c <=? 879) then "A"          (* combining diacritics *)
   else "N")%N%string.

(** Canonical composition of a base letter with a following combining
    acute accent, for the letters the examples use. *)
Fixpoint sample_NFC (s : text) : text :=
  match s with
  | [] => []
  | c :: r =>
      match r with
      | m :: r' =>
          (if (m =? 769) && (c =? 101) then 233 :: sample_NFC r'
           else if (m =? 769) && (c =? 97) then 225 :: sample_NFC r'
           else c :: sample_NFC r)%N
      | [] => [c]
      end
  end.

Definition digit_of (c : codepoint) : option Z :=
  if ((48 <=? c) && (c <=? 57))%N then Some (Z.of_N c - 48) else None.

Fixpoint digits (s : text) (acc : Z) : option Z :=
  match s with
  | [] => Some acc
  | c :: r => match digit_of c with
              | Some d => digits r (10 * acc + d)
              | None => None
              end
  end.

(** [int] on plain decimal literals with an optional sign. *)
Definition sample_int (s : text) : outcome Z :=
  let invalid := Raised (ValueError "invalid literal for int() with base 10") in
  match s with
  | [] => invalid
  | c :: r =>
      if (c =? 45)%N
      then match r with
           | [] => invalid
           | _ :: _ => match digits r 0 with
                       | Some n => Returned (- n)
                       | None => invalid
                       end
           end
      else match digits s 0 with
           | Some n => Returned n
           | None => invalid
           end
  end.

(** A runtime that agrees with CPython on what the examples feed it: ASCII
    text, CJK ideographs, the ascii codec, decimal literals. *)
#[export] Instance runtime : PyRuntime := {
  east_asian_width := sample_east_asian_width;
  normalize_NFC := sample_NFC;
  decode_utf8_replace b :=
    map (fun x => let n := Byte.to_N x in if (n <? 128)%N then n else 65533%N) b;
  encode s enc :=
    if String.eqb enc "ascii"
    then if is_ascii s then Returned (map byte_of s) else Raised UnicodeEncodeError
    else Raised LookupError;
  int := sample_int
}.

Definition posix : Environ :=
  {| IS_WINDOWS := false; terminal_size := Columns 80; COLUMNS := None |}.
Definition windows : Environ :=
  {| IS_WINDOWS := true; terminal_size := Columns 80; COLUMNS := None |}.

Definition fresh_line : CurrentLine := {| chars := 0; width := 0 |}.

(** A writer on a fresh in-memory stream. *)
Definition new_writer (hasmarkup : bool) : TerminalWriter recorder :=
  mkTerminalWriter [] (Some "utf-8"%string) hasmarkup fresh_line None.

(** A writer on a fresh ascii stream. *)
Definition ascii_writer : TerminalWriter ascii_stream :=
  mkTerminalWriter {| written := [] |} (Some "ascii"%string) false fresh_line None.

End Sample.

(** * Properties *)

(** ** Sequences *)

Lemma len_nonneg {A} (s : list A) : 0 <= len s.
Proof. unfold len. lia. Qed.

Lemma len_app {A} (s t : list A) : len (s ++ t) = len s + len t.
Proof. unfold len. rewrite length_app. lia. Qed.

Lemma len_nil_iff {A} (s : list A) : len s = 0 <-> s = [].
Proof.
  unfold len. destruct s as [|a s]; simpl; split; intro H; try reflexivity;
    try discriminate; lia.
Qed.

Lemma len_concat_repeat {A} (s : list A) (n : nat) :
  len (List.concat (repeat s n)) = Z.of_nat n * len s.
Proof.
  induction n as [|n IH].
  - reflexivity.
  - cbn [repeat List.concat]. rewrite len_app, IH. lia.
Qed.

Lemma len_mul {A} (s : list A) (n : Z) : len (mul s n) = Z.max 0 n * len s.
Proof.
  unfold mul. rewrite len_concat_repeat. f_equal. lia.
Qed.

Lemma len_rstrip_le (s : text) : len (rstrip s) <= len s.
Proof.
  unfold len. apply inj_le.
  induction s as [|c r IH]; simpl.
  - lia.
  - destruct (rstrip r) as [|x r'].
    + destruct (isspace c); simpl; lia.
    + simpl in *. lia.
Qed.

Section SplitFacts.
Context {A : Type} (is_sep : A -> bool).

Lemma rsplit_once_None (s : list A) :
  rsplit_once is_sep s = None <-> contains is_sep s = false.
Proof.
  unfold contains. induction s as [|c r IH]; simpl.
  - tauto.
  - destruct (rsplit_once is_sep r) as [[h t]|].
    + split; [discriminate|]. intro H. apply orb_false_iff in H.
      destruct H as [_ H]. apply IH in H. discriminate.
    + destruct (is_sep c); simpl.
      * split; discriminate.
      * split; intros _; [apply IH|]; reflexivity.
Qed.

Lemma rsplit_once_Some (s h t : list A) :
  rsplit_once is_sep s = Some (h, t) ->
  exists c, is_sep c = true /\ s = h ++ c :: t /\ contains is_sep t = false.
Proof.
  revert h. induction s as [|c r IH]; simpl; intros h H.
  - discriminate.
  - destruct (rsplit_once is_sep r) as [[h' t']|] eqn:E.
    + injection H as <- <-. destruct (IH h' eq_refl) as (c' & Hc & -> & Ht).
      exists c'. auto.
    + destruct (is_sep c) eqn:Ec; [|discriminate].
      injection H as <- <-. exists c. repeat split; auto.
      now apply rsplit_once_None.
Qed.

(** The text after the last separator, read off left to right: every
    separator starts the fragment afresh. *)
Definition unterminated_tail (s : list A) : list A :=
  fold_left (fun acc c => if is_sep c then [] else acc ++ [c]) s [].

Lemma fold_tail_rsplit (s acc : list A) :
  fold_left (fun acc c => if is_sep c then [] else acc ++ [c]) s acc =
  match rsplit_once is_sep s with
  | Some (_, t) => t
  | None => acc ++ s
  end.
Proof.
  revert acc. induction s as [|c r IH]; simpl; intro acc.
  - now rewrite app_nil_r.
  - rewrite IH. destruct (rsplit_once is_sep r) as [[h t]|]; [reflexivity|].
    destruct (is_sep c); [reflexivity|]. now rewrite <- app_assoc.
Qed.

Lemma last_rsplit1_tail (s : list A) :
  last_item (rsplit1 is_sep s) = unterminated_tail s.
Proof.
  unfold unterminated_tail, rsplit1, last_item. rewrite fold_tail_rsplit.
  destruct (rsplit_once is_sep s) as [[h t]|]; reflexivity.
Qed.

Lemma last_rsplit1_no_sep (s : list A) :
  contains is_sep s = false -> last_item (rsplit1 is_sep s) = s.
Proof.
  intro H. apply rsplit_once_None in H. unfold rsplit1. now rewrite H.
Qed.

Lemma last_rsplit1_sep (s : list A) :
  contains is_sep s = true ->
  exists h c, is_sep c = true /\ s = h ++ c :: last_item (rsplit1 is_sep s) /\
              contains is_sep (last_item (rsplit1 is_sep s)) = false.
Proof.
  intro H. unfold rsplit1.
  destruct (rsplit_once is_sep s) as [[h t]|] eqn:E.
  - destruct (rsplit_once_Some _ _ _ E) as (c & Hc & Hs & Ht).
    exists h, c. auto.
  - apply rsplit_once_None in E. congruence.
Qed.
End SplitFacts.

Lemma sum_from (l : list Z) (a : Z) : fold_left Z.add l a = a + sum l.
Proof.
  unfold sum. revert a. induction l as [|x l IH]; simpl; intro a.
  - lia.
  - rewrite (IH (a + x)), (IH x). lia.
Qed.

Lemma sum_cons (x : Z) (l : list Z) : sum (x :: l) = x + sum l.
Proof. unfold sum at 1. simpl. apply sum_from. Qed.

(** ** Column weights *)

(** Columns of an East Asian Width class, in the words of the
    specification: Fullwidth and Wide take two, every other class one. *)
Definition columns_spec (cls : string) : Z :=
  if (String.eqb cls "F" || String.eqb cls "W")%bool then 2 else 1.

Lemma char_width_columns (cls : string) : dict_get char_width cls 1 = columns_spec cls.
Proof.
  unfold dict_get, columns_spec, char_width, dict_lookup.
  destruct (String.eqb cls "A") eqn:EA.
  { apply String.eqb_eq in EA. subst. reflexivity. }
  destruct (String.eqb cls "F") eqn:EF; [reflexivity|].
  destruct (String.eqb cls "H") eqn:EH.
  { apply String.eqb_eq in EH. subst. reflexivity. }
  destruct (String.eqb cls "N") eqn:EN.
  { apply String.eqb_eq in EN. subst. reflexivity. }
  destruct (String.eqb cls "Na") eqn:ENa.
  { apply String.eqb_eq in ENa. subst. reflexivity. }
  destruct (String.eqb cls "W"); reflexivity.
Qed.

(** ** Line tracking *)

Section WriterFacts.
Context {R : PyRuntime} {F : Type} {file : File F}.

(** The current-line fragment in the words of the specification: the
    substring after the last line terminator (all of the message when it
    has none), as text. *)
Definition fragment_spec (msg : message) : text :=
  match msg with
  | Text s => unterminated_tail is_newline s
  | Bytes b => decode_utf8_replace (unterminated_tail is_newline_byte b)
  end.

(** Display width in the words of the specification. *)
Definition display_width_spec (s : text) : Z :=
  fold_right (fun c acc => columns_spec (east_asian_width c) + acc) 0 (normalize_NFC s).

(** The tracking rule in the words of the specification: a message with a
    line terminator replaces the pair, any other message adds to it. *)
Definition tracked_spec (msg : message) (cl : CurrentLine) : CurrentLine :=
  if has_newline msg
  then {| chars := len (fragment_spec msg); width := display_width_spec (fragment_spec msg) |}
  else {| chars := chars cl + len (fragment_spec msg);
          width := width cl + display_width_spec (fragment_spec msg) |}.

Lemma current_line_of_fragment (msg : message) : current_line_of msg = fragment_spec msg.
Proof.
  destruct msg; simpl; now rewrite last_rsplit1_tail.
Qed.

Lemma width_of_display_width (s : text) : width_of s = display_width_spec s.
Proof.
  unfold width_of, display_width_spec.
  induction (normalize_NFC s) as [|c l IH]; simpl.
  - reflexivity.
  - rewrite sum_cons, IH, char_width_columns. reflexivity.
Qed.

Lemma update_current_line_tracked (msg : message) (cl : CurrentLine) :
  update_current_line msg cl = tracked_spec msg cl.
Proof.
  unfold update_current_line, tracked_spec.
  now rewrite width_of_display_width, current_line_of_fragment.
Qed.

(** What the runtime does with nothing: normalizing or decoding the empty
    sequence gives the empty text. *)
Definition empty_in_empty_out : Prop :=
  normalize_NFC [] = [] /\ decode_utf8_replace [] = [].

Lemma tracked_spec_falsy (msg : message) (cl : CurrentLine) :
  empty_in_empty_out -> truthy msg = false -> tracked_spec msg cl = cl.
Proof.
  intros [Hn Hd] Hm. destruct cl as [c w].
  destruct msg as [[|x s]|[|x b]]; try discriminate;
    unfold tracked_spec, fragment_spec, display_width_spec, unterminated_tail; simpl;
    rewrite ?Hd, Hn; simpl; f_equal; unfold len; simpl; lia.
Qed.

(** The fields of the writer that the sink cannot touch. *)
Definition same_fields (w w' : TerminalWriter F) : Prop :=
  encoding w' = encoding w /\ hasmarkup w' = hasmarkup w /\
  _current_line w' = _current_line w /\ _terminal_width w' = _terminal_width w.

(** A computation that leaves them alone. *)
Definition keeps {A} (c : Py (TerminalWriter F) A) : Prop :=
  forall w, same_fields w (fst (c w)).

Lemma keeps_ret {A} (a : A) : keeps (ret a).
Proof. intro w. repeat split. Qed.

Lemma keeps_raise {A} (e : exn) : keeps (@raise _ A e).
Proof. intro w. repeat split. Qed.

Lemma keeps_lift {A} (o : outcome A) : keeps (lift o).
Proof. intro w. repeat split. Qed.

Lemma keeps_gets {A} (f : TerminalWriter F -> A) : keeps (gets f).
Proof. intro w. repeat split. Qed.

Lemma keeps_on_file {A} (c : Py F A) : keeps (on_file c).
Proof. intro w. unfold on_file. destruct (c (_file w)). repeat split. Qed.

Lemma keeps_try {A} (c : Py (TerminalWriter F) A) : keeps c -> keeps (try_ c).
Proof. intros H w. specialize (H w). unfold try_. now destruct (c w). Qed.

Lemma keeps_bind {A B} (c : Py (TerminalWriter F) A) (k : A -> Py (TerminalWriter F) B) :
  keeps c -> (forall a, keeps (k a)) -> keeps (bind c k).
Proof.
  intros Hc Hk w. specialize (Hc w). unfold bind.
  destruct (c w) as [w1 [a|e]]; simpl in *; [|exact Hc].
  specialize (Hk a w1). unfold same_fields in *.
  destruct Hc as (E1 & E2 & E3 & E4), Hk as (K1 & K2 & K3 & K4).
  repeat split; congruence.
Qed.

Ltac keep :=
  repeat first
    [ apply keeps_ret | apply keeps_raise | apply keeps_lift | apply keeps_gets
    | apply keeps_on_file | apply keeps_try | apply keeps_bind
    | match goal with
      | |- forall _, _ => intro
      | |- keeps (match ?x with _ => _ end) => destruct x
      end ].

Lemma emit_same_fields (msg : message) : keeps (emit msg).
Proof. unfold emit. keep. Qed.

Lemma write_current_line (msg : message) (kw : kwargs) (w : TerminalWriter F) :
  _current_line (fst (write msg kw w)) =
  if truthy msg then update_current_line msg (_current_line w) else _current_line w.
Proof.
  unfold write. destruct (truthy msg); [|reflexivity].
  unfold bind, gets, modify, lift. simpl.
  destruct (markup _ msg kw) as [m|e]; [|reflexivity].
  now destruct (emit_same_fields m
    (set_current_line (update_current_line msg (_current_line w)) w))
    as (_ & _ & -> & _).
Qed.

Lemma write_tracked (msg : message) (kw : kwargs) (w : TerminalWriter F) :
  empty_in_empty_out ->
  _current_line (fst (write msg kw w)) = tracked_spec msg (_current_line w).
Proof.
  intro H. rewrite write_current_line. destruct (truthy msg) eqn:E.
  - apply update_current_line_tracked.
  - symmetry. now apply tracked_spec_falsy.
Qed.

Lemma writes_tracked (calls : list (message * kwargs)) (w : TerminalWriter F) :
  empty_in_empty_out ->
  _current_line (writes calls w) =
  fold_left (fun cl call => tracked_spec (fst call) cl) calls (_current_line w).
Proof.
  intro H. revert w. induction calls as [|[msg kw] calls IH]; intro w; simpl.
  - reflexivity.
  - rewrite IH. f_equal. now apply write_tracked.
Qed.
End WriterFacts.

Section TailFacts.
Context {A : Type} (is_sep : A -> bool).

Lemma unterminated_tail_no_sep (s : list A) :
  contains is_sep s = false -> unterminated_tail is_sep s = s.
Proof.
  intro H. rewrite <- last_rsplit1_tail. now apply last_rsplit1_no_sep.
Qed.

Lemma unterminated_tail_after (h t : list A) (c : A) :
  is_sep c = true -> contains is_sep t = false ->
  unterminated_tail is_sep (h ++ c :: t) = t.
Proof.
  intros Hc Ht. unfold unterminated_tail. rewrite fold_left_app. simpl.
  rewrite Hc, fold_tail_rsplit.
  apply rsplit_once_None in Ht. now rewrite Ht.
Qed.

Lemma unterminated_tail_app (s t : list A) :
  unterminated_tail is_sep (s ++ t) =
  if contains is_sep t then unterminated_tail is_sep t
  else unterminated_tail is_sep s ++ t.
Proof.
  unfold unterminated_tail at 1. rewrite fold_left_app.
  fold (unterminated_tail is_sep s). rewrite fold_tail_rsplit.
  rewrite <- (last_rsplit1_tail is_sep t). unfold rsplit1, last_item.
  destruct (rsplit_once is_sep t) as [[h t']|] eqn:E.
  - destruct (contains is_sep t) eqn:C; [reflexivity|].
    apply rsplit_once_None in C. congruence.
  - apply rsplit_once_None in E. now rewrite E.
Qed.

Lemma contains_app (s t : list A) :
  contains is_sep (s ++ t) = (contains is_sep s || contains is_sep t)%bool.
Proof. apply existsb_app. Qed.
End TailFacts.

Section Tracking.
Context {R : PyRuntime} {F : Type} {file : File F}.

(** Over text messages the character count follows the concatenation of
    everything written. *)
Lemma chars_of_texts (texts : list text) (cl : CurrentLine) :
  chars (fold_left (fun cl s => tracked_spec (Text s) cl) texts cl) =
  (if contains is_newline (List.concat texts) then 0 else chars cl) +
  len (unterminated_tail is_newline (List.concat texts)).
Proof.
  revert cl. induction texts as [|s texts IH]; intro cl; simpl.
  - unfold len. simpl. lia.
  - rewrite IH, unterminated_tail_app, contains_app.
    destruct (contains is_newline (List.concat texts)) eqn:C.
    + rewrite orb_true_r. reflexivity.
    + rewrite orb_false_r, len_app.
      rewrite (unterminated_tail_no_sep _ (List.concat texts) C).
      unfold tracked_spec. simpl.
      destruct (contains is_newline s); simpl; lia.
Qed.

Lemma fold_tracked_texts (texts : list text) (cl : CurrentLine) :
  fold_left (fun cl (call : message * kwargs) => tracked_spec (fst call) cl)
            (map (fun s => (Text s, [])) texts) cl =
  fold_left (fun cl s => tracked_spec (Text s) cl) texts cl.
Proof.
  revert cl. induction texts as [|s texts IH]; intro cl; simpl; auto.
Qed.

(** C1. Every [write] updates the current-line pair by the tracking rule:
    a message with a line terminator replaces [chars] and [width] by the
    length and display width of the text after its last terminator, any
    other message adds the length and width of the whole message; this
    holds along every sequence of calls, whether they return or raise.
    The fragment is the text after the last terminator (the whole message
    when it has none), and for text messages written from an empty line
    [chars] is the length of the unterminated tail of everything written.
    Writing ["ab"], ["cd\n"], ["e"] leaves [{chars: 1, width: 1}]. *)
Theorem write_tracks_current_line :
  empty_in_empty_out ->
  (forall (calls : list (message * kwargs)) (w : TerminalWriter F),
      _current_line (writes calls w) =
      fold_left (fun cl call => tracked_spec (fst call) cl) calls (_current_line w)) /\
  (forall h t : text,
      contains is_newline t = false ->
      fragment_spec (Text t) = t /\ fragment_spec (Text (h ++ newline ++ t)) = t) /\
  (forall (texts : list text) (w : TerminalWriter F),
      chars (_current_line w) = 0 ->
      chars (_current_line (writes (map (fun s => (Text s, [])) texts) w)) =
      len (unterminated_tail is_newline (List.concat texts))) /\
  (normalize_NFC (str "e") = str "e" ->
   east_asian_width 101%N = "Na"%string ->
   forall (kw1 kw2 kw3 : kwargs) (w : TerminalWriter F),
     _current_line
       (writes [(Text (str "ab"), kw1); (Text (str "cd" ++ newline), kw2);
                (Text (str "e"), kw3)] w) = {| chars := 1; width := 1 |}).
Proof.
  intro H. split; [|split; [|split]].
  - intros calls w. now apply writes_tracked.
  - intros h t Ht. simpl. split.
    + now apply unterminated_tail_no_sep.
    + now apply unterminated_tail_after.
  - intros texts w Hw. rewrite writes_tracked by assumption.
    rewrite fold_tracked_texts, chars_of_texts, Hw.
    destruct (contains is_newline (List.concat texts)); reflexivity.
  - intros He Hc kw1 kw2 kw3 w. rewrite writes_tracked by assumption.
    destruct H as [Hn _].
    change (str "e") with [101%N] in He.
    cbn [fold_left fst]. unfold tracked_spec, fragment_spec, display_width_spec, unterminated_tail.
    simpl. rewrite Hn, He. simpl. rewrite Hc. reflexivity.
Qed.

(** C2. The width [write] adds or stores is the sum, over the characters
    of the NFC-normalized current-line fragment, of the columns of each
    character's East Asian Width class: two for Fullwidth and Wide, one
    for every other class code.  Writing a character of class Wide that
    NFC leaves alone, such as U+6F22, on an empty line gives width 2 and
    chars 1. *)
Theorem write_width_by_east_asian_class :
  (forall (msg : message) (kw : kwargs) (w : TerminalWriter F),
      truthy msg = true ->
      width (_current_line (fst (write msg kw w))) =
      (if has_newline msg then 0 else width (_current_line w)) +
      fold_right (fun c acc => columns_spec (east_asian_width c) + acc) 0
                 (normalize_NFC (fragment_spec msg))) /\
  (forall cls : string,
      dict_get char_width cls 1 =
      if (String.eqb cls "F" || String.eqb cls "W")%bool then 2 else 1) /\
  (east_asian_width 28450%N = "W"%string ->
   normalize_NFC [28450%N] = [28450%N] ->
   forall (kw : kwargs) (w : TerminalWriter F),
     _current_line w = {| chars := 0; width := 0 |} ->
     _current_line (fst (write (Text [28450%N]) kw w)) = {| chars := 1; width := 2 |}).
Proof.
  split; [|split].
  - intros msg kw w Hm. rewrite write_current_line, Hm, update_current_line_tracked.
    unfold tracked_spec, display_width_spec. destruct (has_newline msg); simpl; lia.
  - exact char_width_columns.
  - intros Hc Hn kw w Hw.
    rewrite write_current_line, update_current_line_tracked, Hw. simpl.
    unfold tracked_spec, fragment_spec, display_width_spec, unterminated_tail. simpl.
    rewrite Hn. simpl. rewrite Hc. reflexivity.
Qed.
End Tracking.

(** The width is accumulated write by write: a combining accent written on
    its own counts a column, although NFC folds it into the letter before it
    when both arrive in one message. *)
Remark width_is_per_write :
  width (_current_line
           (writes (R := Sample.runtime) (file := Sample.recorder_file)
                   [(Text [101%N], []); (Text [769%N], [])]
                   (Sample.new_writer false))) = 2 /\
  width (_current_line
           (writes (R := Sample.runtime) (file := Sample.recorder_file)
                   [(Text [101%N; 769%N], [])]
                   (Sample.new_writer false))) = 1.
Proof. split; reflexivity. Qed.

(** ** Markup *)

(** The first keyword name, in call order, that the table does not list. *)
Fixpoint first_unknown (kw : kwargs) : option string :=
  match kw with
  | [] => None
  | (name, _) :: kw' =>
      match dict_lookup _esctable name with
      | Some _ => first_unknown kw'
      | None => Some name
      end
  end.

Lemma first_unknown_Some (kw : kwargs) (name : string) :
  first_unknown kw = Some name ->
  dict_lookup _esctable name = None /\ exists value, In (name, value) kw.
Proof.
  induction kw as [|[n v] kw IH]; cbn [first_unknown In]; [discriminate|].
  destruct (dict_lookup _esctable n) eqn:E; intro H.
  - destruct (IH H) as [Hn [value Hv]]. eauto.
  - injection H as <-. eauto.
Qed.

Lemma first_unknown_exists (kw : kwargs) (name : string) (value : bool) :
  In (name, value) kw -> dict_lookup _esctable name = None ->
  exists name', first_unknown kw = Some name'.
Proof.
  induction kw as [|[n v] kw IH]; cbn [first_unknown In]; [tauto|].
  intros [H|H] Hn.
  - injection H as -> ->. rewrite Hn. eauto.
  - destruct (dict_lookup _esctable n); eauto.
Qed.

Lemma collect_esc_unknown (kw : kwargs) (name : string) (esc : list Z) :
  first_unknown kw = Some name ->
  collect_esc kw esc = Raised (ValueError ("unknown markup: " ++ repr name)).
Proof.
  revert esc. induction kw as [|[n v] kw IH]; cbn [first_unknown collect_esc];
    intros esc H; [discriminate|].
  destruct (dict_lookup _esctable n).
  - now apply IH.
  - now injection H as ->.
Qed.

Lemma markup_unknown (msg : message) (kw : kwargs) (name : string) :
  first_unknown kw = Some name ->
  markup true msg kw = Raised (ValueError ("unknown markup: " ++ repr name)).
Proof.
  intro H. unfold markup. rewrite (collect_esc_unknown kw name [] H).
  destruct kw; [discriminate|reflexivity].
Qed.

Lemma markup_disabled (msg : message) (kw : kwargs) : markup false msg kw = Returned msg.
Proof. reflexivity. Qed.

Lemma markup_no_kw (hm : bool) (msg : message) : markup hm msg [] = Returned msg.
Proof. now destruct hm. Qed.

Section Emission.
Context {R : PyRuntime} {F : Type} {file : File F}.

Lemma write_truthy (msg : message) (kw : kwargs) (w : TerminalWriter F) :
  truthy msg = true ->
  write msg kw w =
  let w1 := set_current_line (update_current_line msg (_current_line w)) w in
  match markup (hasmarkup w) msg kw with
  | Returned msg' => emit msg' w1
  | Raised e => (w1, Raised e)
  end.
Proof.
  intro H. unfold write. rewrite H. unfold bind, modify, gets, lift. simpl.
  destruct (markup (hasmarkup w) msg kw); reflexivity.
Qed.

Lemma write_falsy (msg : message) (kw : kwargs) (w : TerminalWriter F) :
  truthy msg = false -> write msg kw w = (w, Returned tt).
Proof. intro H. unfold write. now rewrite H. Qed.

(** The last fallback of [emit]: once the direct write has failed with an
    encoding error and the sink has no encoding, or re-encoding fails
    too, the unbound name is all that is left. *)
Lemma emit_fallback (msg : message) (w : TerminalWriter F) (f1 : F) :
  file_write msg (_file w) = (f1, Raised UnicodeEncodeError) ->
  encoding_set (file_encoding f1) = None \/
  (exists e, encoding_set (file_encoding f1) = Some e /\
             msg_encode msg e = Raised UnicodeEncodeError) ->
  emit msg w = (set_file f1 w, Raised (NameError "markupmsg")).
Proof.
  intros Hw H. unfold emit, bind, try_, gets, lift, on_file, ret, raise.
  rewrite Hw. simpl.
  destruct H as [H|(e & H & He)]; rewrite H; simpl.
  - reflexivity.
  - rewrite He. reflexivity.
Qed.

Lemma emit_fallback_bytes (msg : message) (w : TerminalWriter F) (f1 f2 : F)
      (e : string) (b : bytes) :
  file_write msg (_file w) = (f1, Raised UnicodeEncodeError) ->
  encoding_set (file_encoding f1) = Some e ->
  msg_encode msg e = Returned b ->
  file_write (Bytes b) f1 = (f2, Raised UnicodeEncodeError) ->
  emit msg w = (set_file f2 w, Raised (NameError "markupmsg")).
Proof.
  intros Hw H He Hb. unfold emit, bind, try_, gets, lift, on_file, ret, raise.
  rewrite Hw. simpl. rewrite H. simpl. rewrite He. simpl. rewrite Hb. reflexivity.
Qed.

(** C3 (defect in the code). For a non-empty message, when the direct
    write fails with an encoding error and the sink reports no
    encoding or re-encoding to the sink's encoding fails too, [write] does
    not escape the message: it raises [NameError] for the unbound name
    [markupmsg], and the sink is handed nothing after the failed
    attempts. *)
Theorem write_escape_fallback_raises_NameError
    (msg msg' : message) (kw : kwargs) (w : TerminalWriter F) (f1 : F) :
  truthy msg = true ->
  markup (hasmarkup w) msg kw = Returned msg' ->
  file_write msg' (_file w) = (f1, Raised UnicodeEncodeError) ->
  encoding_set (file_encoding f1) = None \/
  (exists e, encoding_set (file_encoding f1) = Some e /\
             msg_encode msg' e = Raised UnicodeEncodeError) ->
  snd (write msg kw w) = Raised (NameError "markupmsg") /\
  _file (fst (write msg kw w)) = f1.
Proof.
  intros Hm Hk Hw H. rewrite (write_truthy _ _ _ Hm). cbv zeta. rewrite Hk.
  rewrite (emit_fallback msg' _ f1); [split; reflexivity | exact Hw | exact H].
Qed.

(** C8 (as amended). On a writer with markup enabled, a non-empty message
    and a style flag missing from the table make [write] raise
    [ValueError("unknown markup: <name>")] for the first such flag in call
    order, after the line tracking and before anything reaches the sink.
    With markup disabled the flags are not looked at, and an empty message
    returns at once. *)
Theorem write_unknown_markup (msg : message) (kw : kwargs) (w : TerminalWriter F) :
  (exists name value, In (name, value) kw /\ dict_lookup _esctable name = None) ->
  (truthy msg = true -> hasmarkup w = true ->
   exists name value,
     In (name, value) kw /\ dict_lookup _esctable name = None /\
     first_unknown kw = Some name /\
     write msg kw w =
     (set_current_line (update_current_line msg (_current_line w)) w,
      Raised (ValueError ("unknown markup: " ++ repr name)))) /\
  (hasmarkup w = false -> write msg kw w = write msg [] w) /\
  (truthy msg = false -> write msg kw w = (w, Returned tt)).
Proof.
  intros (name & value & Hin & Hn). split; [|split].
  - intros Hm Hh. destruct (first_unknown_exists _ _ _ Hin Hn) as [name' Hf].
    destruct (first_unknown_Some _ _ Hf) as [Hn' [value' Hin']].
    exists name', value'. repeat split; auto.
    rewrite (write_truthy _ _ _ Hm), Hh. cbv zeta.
    now rewrite (markup_unknown msg kw name' Hf).
  - intro Hh. destruct (truthy msg) eqn:Hm.
    + rewrite !(write_truthy _ _ _ Hm), Hh. reflexivity.
    + now rewrite !write_falsy.
  - apply write_falsy.
Qed.
End Emission.

(** C9. [write("text", bold=True)] hands the sink [ESC "[1m" "text" ESC "[0m"]
    when markup is enabled and the plain ["text"] when it is disabled: this
    is the message the emission starts from on any sink, and what an
    in-memory stream holds afterwards. *)
Theorem write_bold_text {R : PyRuntime} :
  (forall (F : Type) (file : File F) (f : F) (enc : option string) (cl : CurrentLine)
          (tw : option Z),
      let cl' := update_current_line (Text (str "text")) cl in
      write (Text (str "text")) [("bold"%string, true)] (mkTerminalWriter f enc true cl tw) =
      emit (Text (ESC :: str "[1mtext" ++ ESC :: str "[0m"))
           (mkTerminalWriter f enc true cl' tw) /\
      write (Text (str "text")) [("bold"%string, true)] (mkTerminalWriter f enc false cl tw) =
      emit (Text (str "text")) (mkTerminalWriter f enc false cl' tw)) /\
  (forall (log : Sample.recorder) (enc : option string) (cl : CurrentLine) (tw : option Z),
      let cl' := update_current_line (Text (str "text")) cl in
      write (file := Sample.recorder_file) (Text (str "text")) [("bold"%string, true)]
            (mkTerminalWriter log enc true cl tw) =
      (mkTerminalWriter (log ++ [Text (ESC :: str "[1mtext" ++ ESC :: str "[0m")])
                        enc true cl' tw, Returned tt) /\
      write (file := Sample.recorder_file) (Text (str "text")) [("bold"%string, true)]
            (mkTerminalWriter log enc false cl tw) =
      (mkTerminalWriter (log ++ [Text (str "text")]) enc false cl' tw, Returned tt)).
Proof.
  split.
  - intros F file f enc cl tw cl'. split; rewrite write_truthy by reflexivity; reflexivity.
  - intros log enc cl tw cl'. split; rewrite write_truthy by reflexivity; reflexivity.
Qed.

(** ** Separator lines *)

(** The width [sep] works with: one column less on Windows. *)
Definition usable (env : Environ) (fullwidth : Z) : Z :=
  if IS_WINDOWS env then fullwidth - 1 else fullwidth.

(** The number of separator copies on each side of a title. *)
Definition fill_count (env : Environ) (sepchar title : text) (fullwidth : Z) : Z :=
  Z.max ((usable env fullwidth - len title - 2) / (2 * len sepchar)) 1.

(** The extra right-stripped copy, when it still fits after [line]. *)
Definition extra (env : Environ) (sepchar line : text) (fullwidth : Z) : text :=
  if len line + len (rstrip sepchar) <=? usable env fullwidth then rstrip sepchar else [].

Lemma len_pos {A} (s : list A) : s <> [] -> 0 < len s.
Proof.
  intro H. pose proof (len_nonneg s). pose proof (len_nil_iff s).
  destruct (Z.eq_dec (len s) 0); [tauto|lia].
Qed.

Lemma sep_line_shape (env : Environ) (sepchar : text) (title : option text) (fullwidth : Z) :
  sepchar <> [] ->
  let line :=
    match title with
    | Some t => let fill := mul sepchar (fill_count env sepchar t fullwidth) in
                fill ++ str " " ++ t ++ str " " ++ fill
    | None => mul sepchar (usable env fullwidth / len sepchar)
    end in
  sep_line env sepchar title fullwidth = Returned (line ++ extra env sepchar line fullwidth).
Proof.
  intros H line. unfold sep_line. pose proof (len_pos _ H).
  destruct (len sepchar =? 0) eqn:E; [apply Z.eqb_eq in E; lia|].
  subst line. unfold extra, fill_count, usable.
  destruct title as [t|]; cbv zeta;
    match goal with |- context [if ?c <=? ?d then _ else _] => destruct (c <=? d) end;
    rewrite ?app_nil_r; reflexivity.
Qed.

Lemma len_extra (env : Environ) (sepchar line : text) (fullwidth : Z) :
  len line + len (extra env sepchar line fullwidth) =
  if len line + len (rstrip sepchar) <=? usable env fullwidth
  then len line + len (rstrip sepchar) else len line.
Proof.
  unfold extra. destruct (_ <=? _); [reflexivity|]. unfold len at 2. simpl. lia.
Qed.

(** Length of a rule without title, as arithmetic on the separator's length
    [L], the length [s] of its right-stripped copy and the usable width. *)
Definition rule_len (L s W : Z) : Z :=
  let b := Z.max 0 (W / L) * L in
  if b + s <=? W then b + s else b.

Lemma rule_len_le (L s W : Z) : 0 < L -> 0 <= s -> rule_len L s W <= Z.max 0 W.
Proof.
  intros HL Hs. unfold rule_len.
  assert (Hb : Z.max 0 (W / L) * L <= Z.max 0 W).
  { destruct (Z.le_gt_cases 0 W) as [HW|HW].
    - pose proof (Z.div_pos W L HW HL). pose proof (Z.mul_div_le W L HL).
      rewrite !Z.max_r by lia. lia.
    - assert (W / L < 0) by (apply Z.div_lt_upper_bound; lia).
      rewrite !Z.max_l by lia. lia. }
  destruct (_ <=? _) eqn:E; [apply Z.leb_le in E|]; lia.
Qed.

Lemma rule_len_mono (L s W W' : Z) :
  0 < L -> 0 <= s <= L -> W <= W' -> rule_len L s W <= rule_len L s W'.
Proof.
  intros HL Hs HW. unfold rule_len.
  pose proof (Z.div_le_mono W W' L HL HW) as Hq.
  destruct (Z.eq_dec (W / L) (W' / L)) as [E|E].
  - rewrite E.
    destruct (_ <=? W) eqn:E1; destruct (_ <=? W') eqn:E2;
      try apply Z.leb_le in E1; try apply Z.leb_le in E2;
      try apply Z.leb_gt in E1; try apply Z.leb_gt in E2; lia.
  - assert (Hlt : W / L + 1 <= W' / L) by lia.
    destruct (Z.le_gt_cases (W' / L) 0) as [H0|H0].
    + rewrite !Z.max_l by lia.
      destruct (_ <=? W) eqn:E1; destruct (_ <=? W') eqn:E2;
        try apply Z.leb_le in E1; try apply Z.leb_le in E2;
        try apply Z.leb_gt in E1; try apply Z.leb_gt in E2; lia.
    + assert (Z.max 0 (W / L) * L + L <= Z.max 0 (W' / L) * L).
      { rewrite (Z.max_r 0 (W' / L)) by lia.
        destruct (Z.le_gt_cases 0 (W / L)).
        - rewrite Z.max_r by lia. nia.
        - rewrite Z.max_l by lia. nia. }
      destruct (_ <=? W); destruct (_ <=? W'); lia.
Qed.

Lemma sep_line_rule_len (env : Environ) (sepchar : text) (fullwidth : Z) :
  sepchar <> [] ->
  exists line, sep_line env sepchar None fullwidth = Returned line /\
               len line = rule_len (len sepchar) (len (rstrip sepchar)) (usable env fullwidth).
Proof.
  intro H. rewrite (sep_line_shape env sepchar None fullwidth H). cbv zeta.
  eexists. split; [reflexivity|].
  rewrite len_app, len_extra, len_mul. reflexivity.
Qed.

(** What reaches the sink for [line]: [write] skips an empty message. *)
Definition written_line (line : text) : list message :=
  match line with
  | [] => []
  | _ :: _ => [Text line]
  end.

(** On an in-memory stream and without style flags, [sep] with a given width
    leaves the line and a line terminator behind. *)
Lemma sep_recorded {R : PyRuntime} (env : Environ) (sepchar : text) (title : option text)
      (W : Z) (line : text) (w : TerminalWriter Sample.recorder) :
  sep_line env sepchar title W = Returned line ->
  let r := sep (file := Sample.recorder_file) env sepchar title (Some W) [] w in
  snd r = Returned tt /\
  _file (fst r) = _file w ++ written_line line ++ [Text newline].
Proof.
  intros H r. subst r. unfold sep, bind, lift, ret. rewrite H.
  destruct line as [|c line].
  - rewrite (write_falsy (file := Sample.recorder_file) (Text [])) by reflexivity.
    rewrite (write_truthy (file := Sample.recorder_file) (Text newline)) by reflexivity.
    rewrite markup_no_kw. cbn -[update_current_line]. split; reflexivity.
  - rewrite (write_truthy (file := Sample.recorder_file) (Text (c :: line)))
      by reflexivity.
    rewrite markup_no_kw. cbn -[write update_current_line].
    rewrite (write_truthy (file := Sample.recorder_file) (Text newline)) by reflexivity.
    rewrite markup_no_kw. cbn -[update_current_line].
    split; [reflexivity|]. now rewrite <- app_assoc.
Qed.

(** C6. Without a title and with a non-empty separator, the line [sep]
    builds for a width of at least zero is no longer than that width, and
    for a fixed separator its length does not decrease when the width
    grows; an in-memory stream receives that line (when it is not empty)
    and then a line terminator. *)
Theorem sep_rule_fits_and_grows (env : Environ) (sepchar : text) (W W' : Z) :
  sepchar <> [] -> 0 <= W -> W <= W' ->
  exists line line',
    sep_line env sepchar None W = Returned line /\
    sep_line env sepchar None W' = Returned line' /\
    len line <= W /\ len line <= len line' /\
    (forall (R : PyRuntime) (w : TerminalWriter Sample.recorder),
        let r := sep (file := Sample.recorder_file) env sepchar None (Some W) [] w in
        snd r = Returned tt /\
        _file (fst r) = _file w ++ written_line line ++ [Text newline]).
Proof.
  intros H HW HWW'.
  destruct (sep_line_rule_len env sepchar W H) as (line & E & Hl).
  destruct (sep_line_rule_len env sepchar W' H) as (line' & E' & Hl').
  exists line, line'.
  split; [exact E|]. split; [exact E'|]. split; [|split].
  3: { intros R w. now apply sep_recorded. }
  - rewrite Hl. pose proof (len_pos _ H). pose proof (len_nonneg (rstrip sepchar)).
    pose proof (rule_len_le (len sepchar) (len (rstrip sepchar)) (usable env W)).
    unfold usable in *. destruct (IS_WINDOWS env); lia.
  - rewrite Hl, Hl'. apply rule_len_mono.
    + now apply len_pos.
    + split; [apply len_nonneg | apply len_rstrip_le].
    + unfold usable. destruct (IS_WINDOWS env); lia.
Qed.

(** C4 (as amended). With a title and a non-empty separator, the line is
    [fill + " " + title + " " + fill] with the same fill on both sides,
    followed by one more right-stripped copy of the separator when that
    still fits in the usable width; so the right side can be one copy longer
    than the left.  [sep("-", title="X", fullwidth=10)] builds
    ["--- X ----"] (["--- X ---"] on Windows, where the width is first
    reduced by one), and an in-memory stream receives that line and then a
    line terminator. *)
Theorem sep_title_line_shape (env : Environ) (sepchar title : text) (W : Z) :
  sepchar <> [] ->
  (let fill := mul sepchar (fill_count env sepchar title W) in
   let line := fill ++ str " " ++ title ++ str " " ++ fill in
   sep_line env sepchar (Some title) W =
   Returned (if len line + len (rstrip sepchar) <=? usable env W
             then line ++ rstrip sepchar else line)) /\
  (IS_WINDOWS env = false ->
   sep_line env (str "-") (Some (str "X")) 10 = Returned (str "--- X ----")) /\
  (IS_WINDOWS env = true ->
   sep_line env (str "-") (Some (str "X")) 10 = Returned (str "--- X ---")) /\
  (forall (R : PyRuntime) (w : TerminalWriter Sample.recorder),
      IS_WINDOWS env = false ->
      let r := sep (file := Sample.recorder_file) env (str "-") (Some (str "X"))
                   (Some 10) [] w in
      snd r = Returned tt /\
      _file (fst r) = _file w ++ [Text (str "--- X ----"); Text newline]).
Proof.
  intro H.
  assert (Hposix : IS_WINDOWS env = false ->
                   sep_line env (str "-") (Some (str "X")) 10 = Returned (str "--- X ----")).
  { intro E. unfold sep_line. rewrite E. reflexivity. }
  split; [|split; [|split]].
  - cbv zeta. rewrite (sep_line_shape env sepchar (Some title) W H). cbv zeta.
    unfold extra. destruct (_ <=? _); [reflexivity|now rewrite app_nil_r].
  - exact Hposix.
  - intro E. unfold sep_line. rewrite E. reflexivity.
  - intros R w E. exact (sep_recorded env _ _ _ _ w (Hposix E)).
Qed.

(** C5 (as amended). With a title and a non-empty separator, each side of
    the title holds [N = max((w - len(title) - 2) // (2*len(sepchar)), 1)]
    copies of the separator, [w] being the usable width, and the line ends
    with at most one more right-stripped copy.  The line is no longer than
    [w] when [w >= len(title) + 2 + 2*len(sepchar)]; for a smaller [w] it is
    [sepchar + " " + title + " " + sepchar], which is longer than [w].  An
    in-memory stream receives that line and then a line terminator. *)
Theorem sep_title_line_length (env : Environ) (sepchar title : text) (W : Z) :
  sepchar <> [] ->
  exists line,
    sep_line env sepchar (Some title) W = Returned line /\
    (forall (R : PyRuntime) (w : TerminalWriter Sample.recorder),
        let r := sep (file := Sample.recorder_file) env sepchar (Some title) (Some W) [] w in
        snd r = Returned tt /\
        _file (fst r) = _file w ++ written_line line ++ [Text newline]) /\
    (let N := Z.max ((usable env W - len title - 2) / (2 * len sepchar)) 1 in
     let fill := mul sepchar N in
     line = fill ++ str " " ++ title ++ str " " ++ fill \/
     line = (fill ++ str " " ++ title ++ str " " ++ fill) ++ rstrip sepchar) /\
    (len title + 2 + 2 * len sepchar <= usable env W ->
     len line <= usable env W /\ usable env W <= W) /\
    (usable env W < len title + 2 + 2 * len sepchar ->
     line = sepchar ++ str " " ++ title ++ str " " ++ sepchar /\
     len line = len title + 2 + 2 * len sepchar /\ usable env W < len line).
Proof.
  intro H. pose proof (sep_line_shape env sepchar (Some title) W H) as Hshape.
  cbv zeta in Hshape. rewrite Hshape.
  eexists. split; [reflexivity|].
  split; [intros R w; now apply sep_recorded|].
  pose proof (len_pos _ H) as HL. pose proof (len_nonneg title) as Ht.
  pose proof (len_nonneg (rstrip sepchar)) as Hs.
  set (q := (usable env W - len title - 2) / (2 * len sepchar)).
  assert (Hlen : forall n, 1 <= n ->
            len (mul sepchar n ++ str " " ++ title ++ str " " ++ mul sepchar n) =
            2 * (n * len sepchar) + len title + 2).
  { intros n Hn. rewrite !len_app, len_mul. rewrite Z.max_r by lia.
    change (len (str " ")) with 1. lia. }
  split; [|split].
  - unfold extra, fill_count. fold q. destruct (_ <=? _); [right; reflexivity|].
    left. now rewrite app_nil_r.
  - intro Hfit. split; [|unfold usable; destruct (IS_WINDOWS env); lia].
    assert (Hq : 1 <= q).
    { apply Z.div_le_lower_bound; lia. }
    pose proof (Z.mul_div_le (usable env W - len title - 2) (2 * len sepchar)) as Hm.
    fold q in Hm.
    rewrite len_app, len_extra. unfold fill_count. fold q.
    rewrite Z.max_l by lia. rewrite (Hlen q Hq).
    destruct (_ <=? _) eqn:E; [apply Z.leb_le in E|]; nia.
  - intro Hsmall.
    assert (Hq : q < 1).
    { apply Z.div_lt_upper_bound; lia. }
    unfold fill_count, extra. fold q. rewrite Z.max_r by lia.
    rewrite (Hlen 1) by lia.
    replace (mul sepchar 1) with sepchar by (unfold mul; simpl; now rewrite app_nil_r).
    destruct (_ <=? _) eqn:E; [apply Z.leb_le in E; lia|].
    rewrite app_nil_r. rewrite !len_app. change (len (str " ")) with 1.
    repeat split; lia.
Qed.

Section SepState.
Context {R : PyRuntime} {F : Type} {file : File F}.

Lemma write_newline_resets (kw : kwargs) (w : TerminalWriter F) :
  normalize_NFC [] = [] ->
  _current_line (fst (write (Text newline) kw w)) = {| chars := 0; width := 0 |}.
Proof.
  intro Hn. rewrite write_current_line, update_current_line_tracked. simpl.
  unfold tracked_spec, fragment_spec, display_width_spec, unterminated_tail. simpl.
  rewrite Hn. reflexivity.
Qed.

(** C10. When [sep] returns, with or without a title, the current-line
    pair is [{chars: 0, width: 0}]: its last act is to write a line
    terminator, whose fragment is empty. *)
Theorem sep_resets_current_line
    (env : Environ) (sepchar : text) (title : option text) (fullwidth_arg : option Z)
    (kw : kwargs) (w w' : TerminalWriter F) :
  normalize_NFC [] = [] ->
  sep env sepchar title fullwidth_arg kw w = (w', Returned tt) ->
  _current_line w' = {| chars := 0; width := 0 |}.
Proof.
  intros Hn H. unfold sep, bind, lift, ret in H.
  destruct fullwidth_arg as [value|].
  - destruct (sep_line env sepchar title value) as [line|e]; [|discriminate].
    destruct (write (Text line) kw w) as [w1 [[]|e]]; [|discriminate].
    rewrite <- (write_newline_resets [] w1 Hn). now rewrite H.
  - destruct (fullwidth env w) as [value|e]; [|discriminate].
    destruct (sep_line env sepchar title value) as [line|e]; [|discriminate].
    destruct (write (Text line) kw w) as [w1 [[]|e]]; [|discriminate].
    rewrite <- (write_newline_resets [] w1 Hn). now rewrite H.
Qed.

(** C7 (as amended). The [fullwidth] getter returns exactly the override
    once one has been set, whatever its value.  Without an override, a
    queried width other than zero gives a result of at least 40 (the width
    itself from 40 on, otherwise 80); a failed query or a width of zero
    gives 80 when [COLUMNS] is unset and [int(COLUMNS)], unchecked, when it
    is set; an exception of the always-propagated class is raised again. *)
Theorem fullwidth_values (env : Environ) (w : TerminalWriter F) :
  (forall value, fullwidth env (set_fullwidth value w) = Returned value) /\
  (_terminal_width w = None ->
   (forall c, terminal_size env = Columns c -> c <> 0 ->
      exists v, fullwidth env w = Returned v /\ 40 <= v /\
                (40 <= c -> v = c) /\ (c < 40 -> v = 80)) /\
   (terminal_size env = QueryFailed \/ terminal_size env = Columns 0 ->
      (COLUMNS env = None -> fullwidth env w = Returned 80) /\
      (forall s, COLUMNS env = Some s -> fullwidth env w = int s)) /\
   (terminal_size env = QuerySysEx -> fullwidth env w = Raised SysEx)).
Proof.
  split; [reflexivity|]. intro Hw. unfold fullwidth. rewrite Hw.
  split; [|split].
  - intros c Hc Hnz. rewrite Hc.
    destruct (c =? 0) eqn:E0; [apply Z.eqb_eq in E0; contradiction|].
    destruct (c <? 40) eqn:E; [apply Z.ltb_lt in E | apply Z.ltb_ge in E].
    + exists 80. repeat split; lia.
    + exists c. repeat split; lia.
  - intros [Hq|Hq]; rewrite Hq; simpl; split.
    + now intros ->.
    + now intros s ->.
    + now intros ->.
    + now intros s ->.
  - now intros ->.
Qed.
End SepState.

(** ** Where the specification and the code part ways *)

(** C4 fails as written: off Windows, [sep("-", title="X", fullwidth=10)]
    sends ["--- X ----"], ten characters with three dashes on the left and
    four on the right; that is not ["--- X ---"] and no fill makes it
    [fill + " X " + fill]. *)
Lemma sep_title_example_is_lopsided :
  (let r := sep (R := Sample.runtime) (file := Sample.recorder_file) Sample.posix
                (str "-") (Some (str "X")) (Some 10) [] (Sample.new_writer false) in
   snd r = Returned tt /\ _file (fst r) = [Text (str "--- X ----"); Text newline]) /\
  sep_line Sample.posix (str "-") (Some (str "X")) 10 <> Returned (str "--- X ---") /\
  (forall fill : text, str "--- X ----" <> fill ++ str " X " ++ fill).
Proof.
  split; [split; reflexivity|]. split.
  - discriminate.
  - intros fill E. apply (f_equal (@List.length _)) in E.
    rewrite !length_app in E. simpl in E. lia.
Qed.

(** C5 fails as written: with width 10 and the eleven-character title
    ["hello world"], the line is ["- hello world -"], fifteen characters. *)
Lemma sep_long_title_overflows :
  sep_line Sample.posix (str "-") (Some (str "hello world")) 10 =
  Returned (str "- hello world -") /\
  ~ (len (str "- hello world -") <= 10).
Proof.
  split; [reflexivity|]. unfold len. simpl. lia.
Qed.

(** C7 fails as written: after [fullwidth = 0] the getter returns 0, and
    with no terminal and [COLUMNS=0] it returns 0 as well; neither is a
    positive integer. *)
Lemma fullwidth_can_be_zero :
  (exists v, fullwidth (R := Sample.runtime) Sample.posix
                       (set_fullwidth 0 (Sample.new_writer false)) = Returned v /\
             ~ (1 <= v)) /\
  (exists v, fullwidth (R := Sample.runtime)
                       {| IS_WINDOWS := false; terminal_size := QueryFailed;
                          COLUMNS := Some (str "0") |}
                       (Sample.new_writer false) = Returned v /\
             ~ (1 <= v)).
Proof. split; exists 0; split; try reflexivity; lia. Qed.

(** C8 fails as written: with markup disabled, [write("x", fuchsia=True)]
    raises nothing; it returns and the sink receives ["x"]. *)
Lemma write_unknown_flag_without_markup :
  let r := write (R := Sample.runtime) (file := Sample.recorder_file)
                 (Text (str "x")) [("fuchsia"%string, true)] (Sample.new_writer false) in
  dict_lookup _esctable "fuchsia" = None /\
  (forall e, snd r <> Raised e) /\
  snd r = Returned tt /\ _file (fst r) = [Text (str "x")].
Proof. repeat split; try reflexivity. intros e. discriminate. Qed.

(** ** The theorems at concrete inputs *)

Lemma write_tracks_current_line_witness :
  empty_in_empty_out (R := Sample.runtime) /\
  _current_line
    (writes (R := Sample.runtime) (file := Sample.recorder_file)
            [(Text (str "ab"), []); (Text (str "cd" ++ newline), []); (Text (str "e"), [])]
            (Sample.new_writer false)) = {| chars := 1; width := 1 |}.
Proof.
  assert (H : empty_in_empty_out (R := Sample.runtime)) by (split; reflexivity).
  split; [exact H|].
  apply (write_tracks_current_line (R := Sample.runtime) (file := Sample.recorder_file) H);
    reflexivity.
Defined.

Lemma write_width_by_east_asian_class_witness :
  _current_line
    (fst (write (R := Sample.runtime) (file := Sample.recorder_file)
                (Text [28450%N]) [] (Sample.new_writer false))) =
  {| chars := 1; width := 2 |}.
Proof.
  apply (write_width_by_east_asian_class (R := Sample.runtime)
           (file := Sample.recorder_file)); reflexivity.
Defined.

Lemma write_escape_fallback_raises_NameError_witness :
  let r := write (R := Sample.runtime) (file := Sample.ascii_file)
                 (Text [233%N]) [] Sample.ascii_writer in
  snd r = Raised (NameError "markupmsg") /\
  _file (fst r) = {| Sample.written := [] |}.
Proof.
  apply (write_escape_fallback_raises_NameError (R := Sample.runtime)
           (file := Sample.ascii_file) (Text [233%N]) (Text [233%N])).
  - reflexivity.
  - reflexivity.
  - reflexivity.
  - right. exists "ascii"%string. split; reflexivity.
Defined.

Lemma sep_title_line_shape_witness :
  str "-" <> [] /\
  sep_line Sample.posix (str "-") (Some (str "X")) 10 = Returned (str "--- X ----") /\
  sep_line Sample.windows (str "-") (Some (str "X")) 10 = Returned (str "--- X ---").
Proof.
  assert (H : str "-" <> []) by discriminate.
  split; [exact H|]. split.
  - apply (sep_title_line_shape Sample.posix (str "-") (str "X") 10 H). reflexivity.
  - apply (sep_title_line_shape Sample.windows (str "-") (str "X") 10 H). reflexivity.
Defined.

Lemma sep_title_line_length_witness :
  str "-" <> [] /\
  exists line,
    sep_line Sample.posix (str "-") (Some (str "hello")) 60 = Returned line /\
    len line <= 60.
Proof.
  assert (H : str "-" <> []) by discriminate.
  split; [exact H|].
  destruct (sep_title_line_length Sample.posix (str "-") (str "hello") 60 H)
    as (line & E & _ & _ & Hfit & _).
  exists line. split; [exact E|].
  apply Hfit. vm_compute. discriminate.
Defined.

Lemma sep_rule_fits_and_grows_witness :
  str "_ " <> [] /\ 0 <= 9 /\ 9 <= 10 /\
  exists line line',
    sep_line Sample.posix (str "_ ") None 9 = Returned line /\
    sep_line Sample.posix (str "_ ") None 10 = Returned line' /\
    len line <= 9 /\ len line <= len line'.
Proof.
  assert (H : str "_ " <> []) by discriminate.
  assert (H0 : 0 <= 9) by lia.
  assert (H1 : 9 <= 10) by lia.
  repeat (split; [assumption|]).
  destruct (sep_rule_fits_and_grows Sample.posix (str "_ ") 9 10 H H0 H1)
    as (line & line' & E & E' & Hfit & Hmono & _).
  exists line, line'. auto.
Defined.

Lemma fullwidth_values_witness :
  fullwidth (R := Sample.runtime) Sample.posix
            (set_fullwidth 132 (Sample.new_writer false)) = Returned 132 /\
  fullwidth (R := Sample.runtime)
            {| IS_WINDOWS := false; terminal_size := QueryFailed; COLUMNS := None |}
            (Sample.new_writer false) = Returned 80.
Proof.
  split.
  - apply (fullwidth_values (R := Sample.runtime) Sample.posix (Sample.new_writer false)).
  - apply (fullwidth_values (R := Sample.runtime)
             {| IS_WINDOWS := false; terminal_size := QueryFailed; COLUMNS := None |}
             (Sample.new_writer false)).
    + reflexivity.
    + left. reflexivity.
    + reflexivity.
Defined.

Lemma write_unknown_markup_witness :
  exists name value,
    In (name, value) [("fuchsia"%string, true)] /\
    dict_lookup _esctable name = None /\
    first_unknown [("fuchsia"%string, true)] = Some name /\
    write (R := Sample.runtime) (file := Sample.recorder_file)
          (Text (str "x")) [("fuchsia"%string, true)] (Sample.new_writer true) =
    (set_current_line
       (update_current_line (R := Sample.runtime) (Text (str "x")) Sample.fresh_line)
       (Sample.new_writer true),
     Raised (ValueError ("unknown markup: " ++ repr name))).
Proof.
  apply (write_unknown_markup (R := Sample.runtime) (file := Sample.recorder_file)
           (Text (str "x")) [("fuchsia"%string, true)] (Sample.new_writer true)).
  - exists "fuchsia"%string, true. split; [left|]; reflexivity.
  - reflexivity.
  - reflexivity.
Defined.

Lemma sep_resets_current_line_witness :
  normalize_NFC (PyRuntime := Sample.runtime) [] = [] /\
  _current_line
    (fst (sep (R := Sample.runtime) (file := Sample.recorder_file) Sample.posix
              (str "-") (Some (str "X")) (Some 10) [("bold"%string, true)]
              (Sample.new_writer true))) = {| chars := 0; width := 0 |}.
Proof.
  assert (H : normalize_NFC (PyRuntime := Sample.runtime) [] = []) by reflexivity.
  split; [exact H|].
  apply (sep_resets_current_line (R := Sample.runtime) (file := Sample.recorder_file)
           Sample.posix (str "-") (Some (str "X")) (Some 10) [("bold"%string, true)]
           (Sample.new_writer true) _ H).
  reflexivity.
Defined.


(** * Further properties of the module *)

(** ** Definitions *)

(** The codes of the style flags that are set, in call order. *)
Fixpoint selected_codes (kw : kwargs) : list Z :=
  match kw with
  | [] => []
  | (name, value) :: kw' =>
      match dict_lookup _esctable name with
      | Some cod => if value then cod :: selected_codes kw' else selected_codes kw'
      | None => selected_codes kw'
      end
  end.

(** The writer with another value in [self.encoding]. *)
Definition set_encoding {F} (e : option string) (w : TerminalWriter F) : TerminalWriter F :=
  mkTerminalWriter (_file w) e (hasmarkup w) (_current_line w) (_terminal_width w).

(** The writer as [write] leaves it before it turns to markup and sink. *)
Definition tracking {R : PyRuntime} {F} (msg : message) (w : TerminalWriter F)
  : TerminalWriter F :=
  set_current_line (update_current_line msg (_current_line w)) w.

(** [data.encode(encoding, "replace")], which [WriteFile.write] uses: library
    code as well. *)
Class ReplaceCodec : Type := {
  encode_replace : text -> string -> outcome bytes
}.

(** A callable taking one argument, as [WriteFile] wraps it: [C] is whatever
    state the callable works on. *)
Class Callable (C : Type) : Type := {
  call : message -> Py C unit
}.

(** [WriteFile]: lines 194-205. *)
Record WriteFile (C : Type) : Type := mkWriteFile {
  wf_encoding : option string;
  _writemethod : C
}.
Arguments mkWriteFile {C}.
Arguments wf_encoding {C}.
Arguments _writemethod {C}.

(** [WriteFile.write] *)
Definition WriteFile_write {RC : ReplaceCodec} {C} {callable : Callable C}
    (data : message) : Py (WriteFile C) unit :=
  fun f =>
    let encoded :=
      match encoding_set (wf_encoding f) with
      | Some e =>
          match data with
          | Text s => match encode_replace s e with
                      | Returned b => Returned (Bytes b)
                      | Raised x => Raised x
                      end
          | Bytes _ => Raised AttributeError
          end
      | None => Returned data
      end in
    match encoded with
    | Returned data' =>
        let (c, r) := call data' (_writemethod f) in
        (mkWriteFile (wf_encoding f) c, r)
    | Raised x => (f, Raised x)
    end.

(** [WriteFile] as a sink; [flush] only returns. *)
#[export] Instance WriteFile_file {RC : ReplaceCodec} {C} {callable : Callable C}
  : File (WriteFile C) := {
  file_write := WriteFile_write;
  file_flush := ret tt;
  file_encoding := wf_encoding
}.

(** [s == t] on text. *)
Fixpoint text_eqb (s t : text) : bool :=
  match s, t with
  | [], [] => true
  | c :: s', d :: t' => (c =? d)%N && text_eqb s' t'
  | _, _ => false
  end.

(** [s.startswith(prefix)] *)
Fixpoint startswith (s prefix : text) : bool :=
  match prefix, s with
  | [], _ => true
  | d :: prefix', c :: s' => (c =? d)%N && startswith s' prefix'
  | _ :: _, [] => false
  end.

(** What [__init__] reads of the process: two environment entries and the
    platform names. *)
Record Process : Type := {
  PY_COLORS : option text;
  TERM : option text;
  platform : text;
  os_name : text
}.

(** Lines 30-36 of [__init__]: whether the writer uses markup.  [isatty] is
    [None] for a file without that method and else the truth value of
    [file.isatty()]. *)
Definition hasmarkup_of (p : Process) (isatty : option bool) : bool :=
  match PY_COLORS p with
  | Some (c :: colors) =>
      negb (text_eqb (c :: colors) (str "0")) && negb (text_eqb (c :: colors) (str "false"))
  | _ =>
      match isatty with
      | Some true =>
          negb (match TERM p with Some t => text_eqb t (str "dumb") | None => false end)
          && negb (startswith (platform p) (str "java") && text_eqb (os_name p) (str "nt"))
      | _ => false
      end
  end.

(** Further sample objects. *)
Module Sample2.

(** A stream that takes ASCII text and any bytes, and names latin-1 as its
    encoding. *)
Record lenient_stream : Type := { received : list message }.

#[export] Instance lenient_file : File lenient_stream := {
  file_write msg := fun f =>
    match msg with
    | Text s => if Sample.is_ascii s
                then ({| received := received f ++ [msg] |}, Returned tt)
                else (f, Raised UnicodeEncodeError)
    | Bytes _ => ({| received := received f ++ [msg] |}, Returned tt)
    end;
  file_flush := ret tt;
  file_encoding _ := Some "latin-1"%string
}.

(** A closed stream: every [write] raises [ValueError]. *)
Definition closed_stream := unit.

#[export] Instance closed_file : File closed_stream := {
  file_write _ := raise (ValueError "I/O operation on closed file.");
  file_flush := raise (ValueError "I/O operation on closed file.");
  file_encoding _ := Some "utf-8"%string
}.

Definition is_latin1 (s : text) : bool := forallb (fun c => c <? 256)%N s.

(** The sample runtime with the latin-1 codec beside ascii. *)
#[export] Instance runtime : PyRuntime := {
  east_asian_width := Sample.sample_east_asian_width;
  normalize_NFC := Sample.sample_NFC;
  decode_utf8_replace := decode_utf8_replace (PyRuntime := Sample.runtime);
  encode s enc :=
    if String.eqb enc "latin-1"
    then if is_latin1 s then Returned (map Sample.byte_of s) else Raised UnicodeEncodeError
    else encode (PyRuntime := Sample.runtime) s enc;
  int := Sample.sample_int
}.

(** The ascii codec with the ["replace"] handler: a question mark for what
    ASCII lacks. *)
#[export] Instance replace_codec : ReplaceCodec := {
  encode_replace s enc :=
    if String.eqb enc "ascii"
    then Returned (map (fun c => if (c <? 128)%N then Sample.byte_of c else Byte.x3f) s)
    else Raised LookupError
}.

(** [list.append] as the callable: the list of what it was called with. *)
#[export] Instance append_callable : Callable (list message) := {
  call data := fun l => (l ++ [data], Returned tt)
}.

Definition lenient_writer : TerminalWriter lenient_stream :=
  mkTerminalWriter {| received := [] |} (Some "latin-1"%string) false Sample.fresh_line None.

Definition closed_writer : TerminalWriter closed_stream :=
  mkTerminalWriter tt (Some "utf-8"%string) false Sample.fresh_line None.

(** A writer on [WriteFile(l.append, encoding)]. *)
Definition callable_writer (e : option string) (hm : bool)
  : TerminalWriter (WriteFile (list message)) :=
  mkTerminalWriter (mkWriteFile e []) e hm Sample.fresh_line None.

End Sample2.

(** ** Markup in full *)

Lemma collect_esc_known (kw : kwargs) (esc : list Z) :
  first_unknown kw = None ->
  collect_esc kw esc = Returned (esc ++ selected_codes kw).
Proof.
  revert esc. induction kw as [|[n v] kw IH]; cbn [first_unknown collect_esc selected_codes];
    intros esc H.
  - now rewrite app_nil_r.
  - destruct (dict_lookup _esctable n) as [cod|]; [|discriminate].
    rewrite (IH _ H). destruct v; [|reflexivity].
    now rewrite <- app_assoc.
Qed.

Lemma selected_codes_all_off (kw : kwargs) :
  (forall name value, In (name, value) kw -> value = false) ->
  selected_codes kw = [].
Proof.
  induction kw as [|[n v] kw IH]; cbn [selected_codes In]; intro H; [reflexivity|].
  rewrite IH by (intros name value Hin; apply (H name value); now right).
  rewrite (H n v) by now left.
  now destruct (dict_lookup _esctable n).
Qed.

Lemma markup_known (msg : message) (kw : kwargs) :
  first_unknown kw = None ->
  markup true msg kw =
  match selected_codes kw with
  | [] => Returned msg
  | esc =>
      match msg with
      | Text s => Returned (Text (List.concat (map esc_seq esc) ++ s ++ ESC :: str "[0m"))
      | Bytes _ => Raised TypeError
      end
  end.
Proof.
  intro H. unfold markup. rewrite (collect_esc_known kw [] H). cbn [app].
  destruct kw as [|p kw]; [reflexivity|].
  destruct (selected_codes (p :: kw)); reflexivity.
Qed.

Section MoreMarkup.
Context {R : PyRuntime} {F : Type} {file : File F}.

(** X1. With markup enabled and only known flags of which at least one is
    set, a non-empty text message reaches the sink as one [ESC "[" code "m"]
    per set flag, in call order, then the text, then the reset [ESC "[0m"];
    flags that are not set add nothing. *)
Theorem write_wraps_in_call_order (s : text) (kw : kwargs) (w : TerminalWriter F) :
  s <> [] -> hasmarkup w = true -> first_unknown kw = None ->
  selected_codes kw <> [] ->
  write (Text s) kw w =
  emit (Text (List.concat (map esc_seq (selected_codes kw)) ++ s ++ ESC :: str "[0m"))
       (tracking (Text s) w).
Proof.
  intros Hs Hm Hk He.
  rewrite write_truthy by (destruct s; [contradiction|reflexivity]).
  cbv zeta. rewrite Hm, (markup_known _ _ Hk).
  destruct (selected_codes kw); [contradiction|reflexivity].
Qed.

(** X2. When every flag is known and none is set, [write] does exactly what
    it does without flags: no escape sequence and no reset is added, with
    markup enabled or not. *)
Theorem write_flags_off_is_plain (msg : message) (kw : kwargs) (w : TerminalWriter F) :
  first_unknown kw = None ->
  (forall name value, In (name, value) kw -> value = false) ->
  write msg kw w = write msg [] w.
Proof.
  intros Hk Hoff. destruct (truthy msg) eqn:Hm.
  - rewrite !(write_truthy _ _ _ Hm). cbv zeta. rewrite markup_no_kw.
    destruct (hasmarkup w); [|reflexivity].
    now rewrite (markup_known _ _ Hk), (selected_codes_all_off _ Hoff).
  - now rewrite !write_falsy.
Qed.

(** X3. A [bytes] message cannot be styled: with markup enabled and a known
    flag set, [write] raises [TypeError] (the escape text and the bytes do
    not concatenate), after the line tracking and before the sink is
    touched. *)
Theorem write_bytes_with_markup_raises (b : bytes) (kw : kwargs) (w : TerminalWriter F) :
  b <> [] -> hasmarkup w = true -> first_unknown kw = None ->
  selected_codes kw <> [] ->
  write (Bytes b) kw w = (tracking (Bytes b) w, Raised TypeError).
Proof.
  intros Hb Hm Hk He.
  rewrite write_truthy by (destruct b; [contradiction|reflexivity]).
  cbv zeta. rewrite Hm, (markup_known _ _ Hk).
  destruct (selected_codes kw); [contradiction|reflexivity].
Qed.

(** ** The sink protocol *)

(** X4. When the sink takes the message, [write] hands it over once, then
    flushes, and returns what [flush] returns. *)
Theorem write_accepted (msg msg' : message) (kw : kwargs) (w : TerminalWriter F) (f' : F) :
  truthy msg = true ->
  markup (hasmarkup w) msg kw = Returned msg' ->
  file_write msg' (_file w) = (f', Returned tt) ->
  write msg kw w = on_file file_flush (set_file f' (tracking msg w)).
Proof.
  intros Hm Hk Hw. rewrite (write_truthy _ _ _ Hm). cbv zeta. rewrite Hk.
  unfold emit, bind, try_, on_file. cbn [_file set_current_line]. rewrite Hw.
  reflexivity.
Qed.

(** X5. An exception of the sink's [write] that is not a
    [UnicodeEncodeError] reaches the caller as it is: no second attempt, no
    escape fallback, no [flush]. *)
Theorem write_sink_error_propagates
    (msg msg' : message) (kw : kwargs) (w : TerminalWriter F) (f' : F) (e : exn) :
  truthy msg = true ->
  markup (hasmarkup w) msg kw = Returned msg' ->
  e <> UnicodeEncodeError ->
  file_write msg' (_file w) = (f', Raised e) ->
  write msg kw w = (set_file f' (tracking msg w), Raised e).
Proof.
  intros Hm Hk He Hw. rewrite (write_truthy _ _ _ Hm). cbv zeta. rewrite Hk.
  unfold emit, bind, try_, on_file, raise. cbn [_file set_current_line]. rewrite Hw.
  destruct e; try reflexivity. contradiction.
Qed.

(** X6. The re-encoding attempt: when the direct write fails with an
    encoding error, the sink names an encoding, the message encodes to it
    and the sink takes the bytes and flushes, [write] returns normally and
    the sink has received the encoded bytes. *)
Theorem write_reencoded
    (msg msg' : message) (kw : kwargs) (w : TerminalWriter F) (f1 f2 f3 : F)
    (e : string) (b : bytes) :
  truthy msg = true ->
  markup (hasmarkup w) msg kw = Returned msg' ->
  file_write msg' (_file w) = (f1, Raised UnicodeEncodeError) ->
  encoding_set (file_encoding f1) = Some e ->
  msg_encode msg' e = Returned b ->
  file_write (Bytes b) f1 = (f2, Returned tt) ->
  file_flush f2 = (f3, Returned tt) ->
  write msg kw w = (set_file f3 (tracking msg w), Returned tt).
Proof.
  intros Hm Hk Hw He Hb Hw2 Hf. rewrite (write_truthy _ _ _ Hm). cbv zeta. rewrite Hk.
  unfold emit, bind, try_, on_file, gets, lift, ret. cbn [_file set_current_line].
  rewrite Hw. cbn [_file set_file]. rewrite He, Hb. cbn [_file set_file].
  rewrite Hw2. cbn [_file set_file]. rewrite Hf. reflexivity.
Qed.

(** X7. In the re-encoding attempt only an encoding error is swallowed: any
    other exception of [msg.encode] (an unknown codec, say) or of the sink's
    second [write] reaches the caller, and the escape fallback is not
    tried. *)
Theorem write_reencoding_error_propagates
    (msg msg' : message) (kw : kwargs) (w : TerminalWriter F) (f1 : F)
    (e : string) (x : exn) :
  truthy msg = true ->
  markup (hasmarkup w) msg kw = Returned msg' ->
  file_write msg' (_file w) = (f1, Raised UnicodeEncodeError) ->
  encoding_set (file_encoding f1) = Some e ->
  x <> UnicodeEncodeError ->
  (msg_encode msg' e = Raised x ->
   write msg kw w = (set_file f1 (tracking msg w), Raised x)) /\
  (forall b f2, msg_encode msg' e = Returned b ->
                file_write (Bytes b) f1 = (f2, Raised x) ->
                write msg kw w = (set_file f2 (tracking msg w), Raised x)).
Proof.
  intros Hm Hk Hw He Hx. split.
  - intro Hb. rewrite (write_truthy _ _ _ Hm). cbv zeta. rewrite Hk.
    unfold emit, bind, try_, on_file, gets, lift, ret, raise.
    cbn [_file set_current_line]. rewrite Hw. cbn [_file set_file]. rewrite He, Hb.
    destruct x; try reflexivity. contradiction.
  - intros b f2 Hb Hw2. rewrite (write_truthy _ _ _ Hm). cbv zeta. rewrite Hk.
    unfold emit, bind, try_, on_file, gets, lift, ret, raise.
    cbn [_file set_current_line]. rewrite Hw. cbn [_file set_file]. rewrite He, Hb.
    cbn [_file set_file]. rewrite Hw2.
    destruct x; try reflexivity. contradiction.
Qed.
End MoreMarkup.

(** ** What [write] and [sep] leave alone *)

Section Untouched.
Context {R : PyRuntime} {F : Type} {file : File F}.

(** A computation that acts the same whatever [self.encoding] holds. *)
Definition encoding_blind {A} (c : Py (TerminalWriter F) A) : Prop :=
  forall e w, c (set_encoding e w) = (set_encoding e (fst (c w)), snd (c w)).

Lemma blind_ret {A} (a : A) : encoding_blind (ret a).
Proof. intros e w. reflexivity. Qed.

Lemma blind_raise {A} (x : exn) : encoding_blind (@raise _ A x).
Proof. intros e w. reflexivity. Qed.

Lemma blind_lift {A} (o : outcome A) : encoding_blind (lift o).
Proof. intros e w. reflexivity. Qed.

Lemma blind_on_file {A} (c : Py F A) : encoding_blind (on_file c).
Proof. intros e w. unfold on_file. cbn [_file set_encoding]. now destruct (c (_file w)). Qed.

Lemma blind_gets {A} (f : TerminalWriter F -> A) :
  (forall e w, f (set_encoding e w) = f w) -> encoding_blind (gets f).
Proof. intros H e w. unfold gets. now rewrite H. Qed.

Lemma blind_read {A} (f : TerminalWriter F -> outcome A) :
  (forall e w, f (set_encoding e w) = f w) -> encoding_blind (fun w => (w, f w)).
Proof. intros H e w. now rewrite H. Qed.

Lemma blind_modify (g : TerminalWriter F -> TerminalWriter F) :
  (forall e w, g (set_encoding e w) = set_encoding e (g w)) -> encoding_blind (modify g).
Proof. intros H e w. unfold modify. now rewrite H. Qed.

Lemma blind_try {A} (c : Py (TerminalWriter F) A) :
  encoding_blind c -> encoding_blind (try_ c).
Proof. intros H e w. unfold try_. rewrite H. now destruct (c w). Qed.

Lemma blind_bind {A B} (c : Py (TerminalWriter F) A) (k : A -> Py (TerminalWriter F) B) :
  encoding_blind c -> (forall a, encoding_blind (k a)) -> encoding_blind (bind c k).
Proof.
  intros Hc Hk e w. unfold bind. rewrite Hc.
  destruct (c w) as [w1 [a|x]]; cbn [fst snd]; [apply Hk|reflexivity].
Qed.

Ltac blind :=
  repeat first
    [ apply blind_ret | apply blind_raise | apply blind_lift
    | apply blind_on_file | apply blind_try | apply blind_bind
    | apply blind_gets; reflexivity | apply blind_modify; reflexivity
    | apply blind_read; reflexivity
    | match goal with
      | |- forall _, _ => intro
      | |- encoding_blind (match ?x with _ => _ end) => destruct x
      end ].

Lemma emit_encoding_blind (msg : message) : encoding_blind (emit msg).
Proof. unfold emit. blind. Qed.

Lemma write_encoding_blind (msg : message) (kw : kwargs) : encoding_blind (write msg kw).
Proof.
  unfold write. destruct (truthy msg); [|apply blind_ret].
  blind.
Qed.

(** X8. [self.encoding] plays no part in [write] or [sep]: with any other
    value in it they do the same to the sink and to the line state, return
    or raise the same, and leave the attribute as they found it.  (The
    re-encoding uses the sink's own [encoding].) *)
Theorem write_sep_ignore_own_encoding
    (env : Environ) (e : option string) (w : TerminalWriter F) :
  (forall msg kw,
      write msg kw (set_encoding e w) =
      (set_encoding e (fst (write msg kw w)), snd (write msg kw w))) /\
  (forall sepchar title fullwidth_arg kw,
      sep env sepchar title fullwidth_arg kw (set_encoding e w) =
      (set_encoding e (fst (sep env sepchar title fullwidth_arg kw w)),
       snd (sep env sepchar title fullwidth_arg kw w))).
Proof.
  split.
  - intros msg kw. apply write_encoding_blind.
  - intros sepchar title fullwidth_arg kw. revert e w.
    change (encoding_blind (sep env sepchar title fullwidth_arg kw)).
    unfold sep.
    apply blind_bind; [destruct fullwidth_arg; [apply blind_ret|now apply blind_read]|].
    intro fw. apply blind_bind; [apply blind_lift|].
    intro line. apply blind_bind; [apply write_encoding_blind|].
    intros _. apply write_encoding_blind.
Qed.

(** A computation that changes neither the markup flag nor the width
    override nor [self.encoding]. *)
Definition steady {A} (c : Py (TerminalWriter F) A) : Prop :=
  forall w, encoding (fst (c w)) = encoding w /\
            hasmarkup (fst (c w)) = hasmarkup w /\
            _terminal_width (fst (c w)) = _terminal_width w.

Lemma steady_bind {A B} (c : Py (TerminalWriter F) A) (k : A -> Py (TerminalWriter F) B) :
  steady c -> (forall a, steady (k a)) -> steady (bind c k).
Proof.
  intros Hc Hk w. specialize (Hc w). unfold bind.
  destruct (c w) as [w1 [a|x]]; cbn [fst] in *; [|exact Hc].
  destruct (Hk a w1) as (K1 & K2 & K3), Hc as (E1 & E2 & E3).
  repeat split; congruence.
Qed.

Lemma steady_write (msg : message) (kw : kwargs) : steady (write msg kw).
Proof.
  intro w. destruct (truthy msg) eqn:Hm.
  - rewrite (write_truthy _ _ _ Hm). cbv zeta.
    destruct (markup (hasmarkup w) msg kw) as [m|x]; [|repeat split].
    destruct (emit_same_fields m
                (set_current_line (update_current_line msg (_current_line w)) w))
      as (E1 & E2 & _ & E3).
    repeat split; assumption.
  - rewrite (write_falsy _ _ _ Hm). repeat split.
Qed.

Lemma steady_sep (env : Environ) (sepchar : text) (title : option text)
      (fullwidth_arg : option Z) (kw : kwargs) :
  steady (sep env sepchar title fullwidth_arg kw).
Proof.
  unfold sep. apply steady_bind.
  - destruct fullwidth_arg; intro w; repeat split.
  - intro fw. apply steady_bind; [intro w; repeat split|].
    intro line. apply steady_bind; [apply steady_write|].
    intros _. apply steady_write.
Qed.

(** X9. [write] and [sep] never change the markup flag, the width override
    or [self.encoding], whether they return or raise; so the [fullwidth]
    getter answers after them what it answered before. *)
Theorem write_sep_keep_settings (env : Environ) (w : TerminalWriter F) :
  (forall msg kw,
      let w' := fst (write msg kw w) in
      hasmarkup w' = hasmarkup w /\ _terminal_width w' = _terminal_width w /\
      encoding w' = encoding w /\ fullwidth env w' = fullwidth env w) /\
  (forall sepchar title fullwidth_arg kw,
      let w' := fst (sep env sepchar title fullwidth_arg kw w) in
      hasmarkup w' = hasmarkup w /\ _terminal_width w' = _terminal_width w /\
      encoding w' = encoding w /\ fullwidth env w' = fullwidth env w).
Proof.
  split.
  - intros msg kw w'. destruct (steady_write msg kw w) as (E1 & E2 & E3).
    fold w' in E1, E2, E3. repeat split; auto. unfold fullwidth. now rewrite E3.
  - intros sepchar title fullwidth_arg kw w'.
    destruct (steady_sep env sepchar title fullwidth_arg kw w) as (E1 & E2 & E3).
    fold w' in E1, E2, E3. repeat split; auto. unfold fullwidth. now rewrite E3.
Qed.
End Untouched.

(** ** The line state *)

Lemma columns_spec_range (cls : string) : 1 <= columns_spec cls <= 2.
Proof. unfold columns_spec. destruct (_ || _)%bool; lia. Qed.

Section LineState.
Context {R : PyRuntime} {F : Type} {file : File F}.

Lemma display_width_bounds (s : text) :
  len (normalize_NFC s) <= display_width_spec s <= 2 * len (normalize_NFC s).
Proof.
  unfold display_width_spec.
  induction (normalize_NFC s) as [|c l IH]; cbn [fold_right].
  - unfold len. simpl. lia.
  - pose proof (columns_spec_range (east_asian_width c)).
    unfold len in *. cbn [List.length]. lia.
Qed.

Lemma write_line (msg : message) (kw : kwargs) (w : TerminalWriter F) :
  truthy msg = true ->
  _current_line (fst (write msg kw w)) = tracked_spec msg (_current_line w).
Proof.
  intro Hm. now rewrite write_current_line, Hm, update_current_line_tracked.
Qed.

(** Counters that are not negative. *)
Definition counted (cl : CurrentLine) : Prop := 0 <= chars cl /\ 0 <= width cl.

Lemma write_counted (msg : message) (kw : kwargs) (w : TerminalWriter F) :
  counted (_current_line w) -> counted (_current_line (fst (write msg kw w))).
Proof.
  intros [Hc Hw]. destruct (truthy msg) eqn:Hm.
  - rewrite (write_line _ _ _ Hm). unfold tracked_spec.
    pose proof (len_nonneg (fragment_spec msg)).
    pose proof (display_width_bounds (fragment_spec msg)).
    pose proof (len_nonneg (normalize_NFC (fragment_spec msg))).
    destruct (has_newline msg); split; cbn [chars width]; lia.
  - rewrite (write_falsy _ _ _ Hm). now split.
Qed.

(** A computation that keeps the counters from going negative. *)
Definition counting {A} (c : Py (TerminalWriter F) A) : Prop :=
  forall w, counted (_current_line w) -> counted (_current_line (fst (c w))).

Lemma counting_bind {A B} (c : Py (TerminalWriter F) A) (k : A -> Py (TerminalWriter F) B) :
  counting c -> (forall a, counting (k a)) -> counting (bind c k).
Proof.
  intros Hc Hk w H. specialize (Hc w H). unfold bind.
  destruct (c w) as [w1 [a|x]]; cbn [fst] in *; [now apply Hk|exact Hc].
Qed.

(** X10. The line counters never go below zero: [write] and [sep], returning
    or raising, and any sequence of [write] calls keep [chars >= 0] and
    [width >= 0]. *)
Theorem line_counters_stay_nonnegative (env : Environ) (w : TerminalWriter F) :
  0 <= chars (_current_line w) /\ 0 <= width (_current_line w) ->
  (forall msg kw,
      let cl := _current_line (fst (write msg kw w)) in 0 <= chars cl /\ 0 <= width cl) /\
  (forall calls,
      let cl := _current_line (writes calls w) in 0 <= chars cl /\ 0 <= width cl) /\
  (forall sepchar title fullwidth_arg kw,
      let cl := _current_line (fst (sep env sepchar title fullwidth_arg kw w)) in
      0 <= chars cl /\ 0 <= width cl).
Proof.
  intro H. split; [|split].
  - intros msg kw. now apply write_counted.
  - intros calls. cbv zeta. revert w H.
    induction calls as [|[msg kw] calls IH]; intros w H; cbn [writes]; [exact H|].
    apply IH. now apply write_counted.
  - intros sepchar title fullwidth_arg kw. cbv zeta. revert w H.
    change (counting (sep env sepchar title fullwidth_arg kw)).
    unfold sep. apply counting_bind.
    + destruct fullwidth_arg; intros w H; exact H.
    + intro fw. apply counting_bind; [intros w H; exact H|].
      intro line. apply counting_bind; intros; intros w H; now apply write_counted.
Qed.

(** X11. A message whose current-line fragment NFC leaves as it is (plain
    ASCII, say) adds at least as many columns as characters and at most
    twice as many: [chars <= width <= 2 * chars] is kept by such a
    [write]. *)
Theorem write_keeps_width_between (msg : message) (kw : kwargs) (w : TerminalWriter F) :
  normalize_NFC (current_line_of msg) = current_line_of msg ->
  chars (_current_line w) <= width (_current_line w) <= 2 * chars (_current_line w) ->
  let cl := _current_line (fst (write msg kw w)) in
  chars cl <= width cl <= 2 * chars cl.
Proof.
  intros Hn H cl. subst cl. destruct (truthy msg) eqn:Hm.
  - rewrite (write_line _ _ _ Hm). unfold tracked_spec.
    rewrite current_line_of_fragment in Hn.
    pose proof (display_width_bounds (fragment_spec msg)) as Hb. rewrite Hn in Hb.
    destruct (has_newline msg); cbn [chars width]; lia.
  - now rewrite (write_falsy _ _ _ Hm).
Qed.

(** X12. After writing any text that ends with a line terminator the line
    state is [{chars: 0, width: 0}], whatever it was and whether the sink
    took the text or not. *)
Theorem write_terminated_text_resets (s : text) (kw : kwargs) (w : TerminalWriter F) :
  normalize_NFC [] = [] ->
  _current_line (fst (write (Text (s ++ newline)) kw w)) = {| chars := 0; width := 0 |}.
Proof.
  intro Hn. rewrite write_line by (destruct s; reflexivity).
  unfold tracked_spec. cbn [has_newline fragment_spec].
  rewrite contains_app. cbn [contains newline existsb is_newline N.eqb Pos.eqb orb].
  rewrite orb_true_r.
  change (s ++ newline) with (s ++ 10%N :: []).
  rewrite (unterminated_tail_after is_newline s [] 10%N) by reflexivity.
  unfold display_width_spec. rewrite Hn. reflexivity.
Qed.

Lemma write_text_chars (s : text) (kw : kwargs) (w : TerminalWriter F) :
  chars (_current_line (fst (write (Text s) kw w))) =
  (if contains is_newline s then 0 else chars (_current_line w)) +
  len (unterminated_tail is_newline s).
Proof.
  destruct s as [|c s].
  - rewrite write_falsy by reflexivity. unfold len. simpl. lia.
  - rewrite write_line by reflexivity. unfold tracked_spec.
    cbn [has_newline fragment_spec].
    destruct (contains is_newline (c :: s)); cbn [chars]; lia.
Qed.

(** X13. For text, the character count does not depend on how the output is
    cut into calls: writing [s] and then [t] leaves the same [chars] as
    writing [s + t] at once.  (The width can differ: see
    [width_is_per_write].) *)
Theorem write_split_same_chars (s t : text) (kw1 kw2 kw : kwargs) (w : TerminalWriter F) :
  chars (_current_line (fst (write (Text t) kw2 (fst (write (Text s) kw1 w))))) =
  chars (_current_line (fst (write (Text (s ++ t)) kw w))).
Proof.
  rewrite !write_text_chars, unterminated_tail_app, contains_app.
  destruct (contains is_newline t) eqn:Ht.
  - now rewrite orb_true_r.
  - rewrite orb_false_r, len_app, (unterminated_tail_no_sep _ t Ht).
    destruct (contains is_newline s); lia.
Qed.
End LineState.

(** ** Separator lines, continued *)

(** The width [sep] starts from: its argument, or the getter's answer. *)
Definition resolve {R : PyRuntime} {F} (env : Environ) (fullwidth_arg : option Z)
    (w : TerminalWriter F) : outcome Z :=
  match fullwidth_arg with
  | Some value => Returned value
  | None => fullwidth env w
  end.

(** Length of a rule with a title of length [t], as arithmetic. *)
Definition titled_len (t L s W : Z) : Z :=
  let b := t + 2 + 2 * (Z.max ((W - t - 2) / (2 * L)) 1 * L) in
  if b + s <=? W then b + s else b.

Lemma sep_line_titled_len (env : Environ) (sepchar title : text) (W : Z) :
  sepchar <> [] ->
  exists line, sep_line env sepchar (Some title) W = Returned line /\
               len line = titled_len (len title) (len sepchar) (len (rstrip sepchar))
                                     (usable env W).
Proof.
  intro H. rewrite (sep_line_shape env sepchar (Some title) W H). cbv zeta.
  eexists. split; [reflexivity|].
  assert (Hl : len (mul sepchar (fill_count env sepchar title W) ++ str " " ++ title ++
                    str " " ++ mul sepchar (fill_count env sepchar title W)) =
               len title + 2 +
               2 * (Z.max ((usable env W - len title - 2) / (2 * len sepchar)) 1 *
                    len sepchar)).
  { rewrite !len_app, len_mul. change (len (str " ")) with 1. unfold fill_count.
    rewrite (Z.max_r 0) by lia. lia. }
  rewrite len_app, len_extra, Hl. reflexivity.
Qed.

Lemma titled_len_mono (t L s W W' : Z) :
  0 < L -> 0 <= s <= L -> W <= W' -> titled_len t L s W <= titled_len t L s W'.
Proof.
  intros HL Hs HW. unfold titled_len.
  assert (Hq : (W - t - 2) / (2 * L) <= (W' - t - 2) / (2 * L))
    by (apply Z.div_le_mono; lia).
  set (n := Z.max ((W - t - 2) / (2 * L)) 1).
  set (n' := Z.max ((W' - t - 2) / (2 * L)) 1).
  assert (Hn : n <= n') by (unfold n, n'; lia).
  destruct (Z.eq_dec n n') as [E|E].
  - rewrite <- E.
    destruct (_ <=? W) eqn:E1; destruct (_ <=? W') eqn:E2;
      try apply Z.leb_le in E1; try apply Z.leb_le in E2;
      try apply Z.leb_gt in E1; try apply Z.leb_gt in E2; lia.
  - assert (n * L + L <= n' * L) by nia.
    destruct (_ <=? W); destruct (_ <=? W'); lia.
Qed.

Lemma titled_len_fits (t L s W : Z) :
  0 < L -> 0 <= s -> t + 2 + 2 * L <= W ->
  W - 2 * L < titled_len t L s W <= W.
Proof.
  intros HL Hs Hfit. unfold titled_len.
  assert (Hq : 1 <= (W - t - 2) / (2 * L)) by (apply Z.div_le_lower_bound; lia).
  pose proof (Z.mul_div_le (W - t - 2) (2 * L)) as Hle.
  pose proof (Z.mul_succ_div_gt (W - t - 2) (2 * L)) as Hgt.
  rewrite Z.max_l by lia.
  destruct (_ <=? W) eqn:E; [apply Z.leb_le in E|]; nia.
Qed.

Lemma rule_len_slack (L s W : Z) :
  0 < L -> 0 <= s -> 0 <= W -> W - L < rule_len L s W <= W.
Proof.
  intros HL Hs HW. unfold rule_len.
  pose proof (Z.div_pos W L HW HL). pose proof (Z.mul_div_le W L HL).
  pose proof (Z.mul_succ_div_gt W L HL).
  rewrite Z.max_r by lia.
  destruct (_ <=? W) eqn:E; [apply Z.leb_le in E|]; nia.
Qed.

Lemma concat_repeat_single {A} (c : A) (n : nat) : List.concat (repeat [c] n) = repeat c n.
Proof. induction n as [|n IH]; cbn [repeat List.concat app]; [|rewrite IH]; reflexivity. Qed.

Lemma rstrip_incl (s : text) (c : N) : In c (rstrip s) -> In c s.
Proof.
  induction s as [|d r IH]; cbn [rstrip]; [tauto|].
  destruct (rstrip r) as [|x r'].
  - destruct (isspace d); cbn [In]; tauto.
  - cbn [In] in *. tauto.
Qed.

Lemma mul_incl {A} (s : list A) (n : Z) (c : A) : In c (mul s n) -> In c s.
Proof.
  unfold mul. induction (Z.to_nat n) as [|k IH]; cbn [repeat List.concat In];
    [tauto|].
  intro H. apply in_app_iff in H. destruct H as [H|H]; auto.
Qed.

Section SepMore.
Context {R : PyRuntime} {F : Type} {file : File F}.

Lemma sep_resolved (env : Environ) (sepchar : text) (title : option text)
      (fullwidth_arg : option Z) (kw : kwargs) (w : TerminalWriter F) :
  sep env sepchar title fullwidth_arg kw w =
  match resolve env fullwidth_arg w with
  | Returned fw =>
      match sep_line env sepchar title fw with
      | Returned line =>
          match write (Text line) kw w with
          | (w1, Returned _) => write (Text newline) [] w1
          | (w1, Raised x) => (w1, Raised x)
          end
      | Raised x => (w, Raised x)
      end
  | Raised x => (w, Raised x)
  end.
Proof.
  unfold sep, resolve, bind, lift, ret.
  destruct fullwidth_arg as [v|]; [|destruct (fullwidth env w)]; reflexivity.
Qed.

(** X14. An empty separator makes [sep] raise [ZeroDivisionError], with or
    without a title, once the width is known; the sink and the line state
    are left untouched. *)
Theorem sep_empty_separator_raises
    (env : Environ) (title : option text) (fullwidth_arg : option Z) (kw : kwargs)
    (w : TerminalWriter F) (fw : Z) :
  resolve env fullwidth_arg w = Returned fw ->
  sep env [] title fullwidth_arg kw w = (w, Raised ZeroDivisionError).
Proof.
  intro H. rewrite sep_resolved, H. reflexivity.
Qed.

(** X15. Without a width argument [sep] works with the getter's answer: it
    behaves as if called with that width, so after the setter stored [v] as
    if called with [fullwidth=v]; and when the getter raises, [sep] raises
    the same before anything is written. *)
Theorem sep_resolves_width
    (env : Environ) (sepchar : text) (title : option text) (kw : kwargs)
    (w : TerminalWriter F) :
  (forall v, sep env sepchar title None kw (set_fullwidth v w) =
             sep env sepchar title (Some v) kw (set_fullwidth v w)) /\
  (forall v, fullwidth env w = Returned v ->
             sep env sepchar title None kw w = sep env sepchar title (Some v) kw w) /\
  (forall x, fullwidth env w = Raised x ->
             sep env sepchar title None kw w = (w, Raised x)).
Proof.
  split; [|split].
  - intro v. now rewrite !sep_resolved.
  - intros v H. rewrite !sep_resolved. cbn [resolve]. now rewrite H.
  - intros x H. rewrite sep_resolved. cbn [resolve]. now rewrite H.
Qed.

(** X16. With markup enabled and a style flag the table does not list, [sep]
    raises [ValueError] when the line is not empty: nothing reaches the
    sink, no terminator is written and the line state is left at the line's
    values instead of being reset.  When the line is empty the flags are
    never looked at and [sep] just writes the terminator. *)
Theorem sep_unknown_markup
    (env : Environ) (sepchar : text) (title : option text) (fullwidth_arg : option Z)
    (kw : kwargs) (w : TerminalWriter F) (fw : Z) (line : text) (name : string) :
  hasmarkup w = true -> first_unknown kw = Some name ->
  resolve env fullwidth_arg w = Returned fw ->
  sep_line env sepchar title fw = Returned line ->
  (line <> [] ->
   sep env sepchar title fullwidth_arg kw w =
   (tracking (Text line) w, Raised (ValueError ("unknown markup: " ++ repr name)))) /\
  (line = [] ->
   sep env sepchar title fullwidth_arg kw w = write (Text newline) [] w).
Proof.
  intros Hm Hk Hr Hl. rewrite sep_resolved, Hr, Hl. split.
  - intro Hne. rewrite write_truthy by (destruct line; [contradiction|reflexivity]).
    cbv zeta. rewrite Hm, (markup_unknown _ _ _ Hk). reflexivity.
  - intros ->. rewrite write_falsy by reflexivity. reflexivity.
Qed.
End SepMore.

(** X17. [sep] makes the line as long as the width allows: without a title
    and with a usable width of at least zero, fewer than [len(sepchar)]
    columns stay free; with a title that fits
    ([len(title) + 2 + 2*len(sepchar)] columns or more), fewer than
    [2*len(sepchar)]. *)
Theorem sep_line_fills_width (env : Environ) (sepchar : text) (W : Z) :
  sepchar <> [] ->
  (0 <= usable env W ->
   exists line, sep_line env sepchar None W = Returned line /\
                usable env W - len sepchar < len line <= usable env W) /\
  (forall title, len title + 2 + 2 * len sepchar <= usable env W ->
   exists line, sep_line env sepchar (Some title) W = Returned line /\
                usable env W - 2 * len sepchar < len line <= usable env W).
Proof.
  intro H. pose proof (len_pos _ H) as HL.
  pose proof (len_nonneg (rstrip sepchar)) as Hs. split.
  - intro HW. destruct (sep_line_rule_len env sepchar W H) as (line & E & Hlen).
    exists line. split; [exact E|]. rewrite Hlen. now apply rule_len_slack.
  - intros title Hfit.
    destruct (sep_line_titled_len env sepchar title W H) as (line & E & Hlen).
    exists line. split; [exact E|]. rewrite Hlen. now apply titled_len_fits.
Qed.

(** X18. With a separator of one character the rule without title is that
    character repeated over the whole usable width; with a title that fits
    and a character that is not white space, the line is exactly as long as
    the usable width. *)
Theorem sep_single_character_exact (env : Environ) (c : N) (W : Z) :
  sep_line env [c] None W = Returned (repeat c (Z.to_nat (usable env W))) /\
  (forall title,
      isspace c = false -> len title + 4 <= usable env W ->
      exists line, sep_line env [c] (Some title) W = Returned line /\
                   len line = usable env W).
Proof.
  split.
  - assert (H : [c] <> []) by discriminate.
    rewrite (sep_line_shape env [c] None W H). cbv zeta.
    change (len [c]) with 1. rewrite Z.div_1_r. unfold mul.
    rewrite concat_repeat_single. unfold extra.
    assert (Hr : len (repeat c (Z.to_nat (usable env W))) = Z.max 0 (usable env W)).
    { unfold len. rewrite repeat_length. lia. }
    cbn [rstrip]. destruct (isspace c).
    + destruct (_ <=? _); now rewrite app_nil_r.
    + rewrite Hr. change (len [c]) with 1.
      destruct (_ <=? _) eqn:E; [apply Z.leb_le in E; lia|]. now rewrite app_nil_r.
  - intros title Hc Hfit. assert (H : [c] <> []) by discriminate.
    destruct (sep_line_titled_len env [c] title W H) as (line & E & Hlen).
    exists line. split; [exact E|]. rewrite Hlen.
    cbn [rstrip]. rewrite Hc. change (len [c]) with 1. unfold titled_len.
    assert (Hq : 1 <= (usable env W - len title - 2) / (2 * 1))
      by (apply Z.div_le_lower_bound; lia).
    pose proof (Z.mul_div_le (usable env W - len title - 2) (2 * 1)).
    pose proof (Z.mul_succ_div_gt (usable env W - len title - 2) (2 * 1)).
    rewrite Z.max_l by lia.
    destruct (_ <=? _) eqn:E1; [apply Z.leb_le in E1 | apply Z.leb_gt in E1]; lia.
Qed.

(** X19. A rule without title holds nothing but characters of the
    separator. *)
Theorem sep_rule_only_separator (env : Environ) (sepchar line : text) (W : Z) :
  sep_line env sepchar None W = Returned line ->
  forall c, In c line -> In c sepchar.
Proof.
  intros E c Hin. destruct sepchar as [|d r]; [discriminate|].
  assert (H : d :: r <> []) by discriminate.
  rewrite (sep_line_shape env _ None W H) in E. cbv zeta in E.
  injection E as <-. apply in_app_iff in Hin. destruct Hin as [Hin|Hin].
  - now apply mul_incl in Hin.
  - unfold extra in Hin. destruct (_ <=? _); [now apply rstrip_incl|contradiction].
Qed.

(** X20. With a title too, the line never gets shorter when the width
    grows. *)
Theorem sep_title_line_grows (env : Environ) (sepchar title : text) (W W' : Z) :
  sepchar <> [] -> W <= W' ->
  exists line line',
    sep_line env sepchar (Some title) W = Returned line /\
    sep_line env sepchar (Some title) W' = Returned line' /\
    len line <= len line'.
Proof.
  intros H HW.
  destruct (sep_line_titled_len env sepchar title W H) as (line & E & Hl).
  destruct (sep_line_titled_len env sepchar title W' H) as (line' & E' & Hl').
  exists line, line'. split; [exact E|]. split; [exact E'|].
  rewrite Hl, Hl'. apply titled_len_mono.
  - now apply len_pos.
  - split; [apply len_nonneg|apply len_rstrip_le].
  - unfold usable. destruct (IS_WINDOWS env); lia.
Qed.

(** X21. [sep] styles the line and nothing else: on an in-memory stream the
    line arrives with its markup and the terminator after it arrives plain,
    whatever the style flags. *)
Theorem sep_styles_line_only {R : PyRuntime}
    (env : Environ) (sepchar : text) (title : option text) (W : Z) (kw : kwargs)
    (line : text) (m : message) (w : TerminalWriter Sample.recorder) :
  sep_line env sepchar title W = Returned line -> line <> [] ->
  markup (hasmarkup w) (Text line) kw = Returned m ->
  let r := sep (file := Sample.recorder_file) env sepchar title (Some W) kw w in
  snd r = Returned tt /\ _file (fst r) = _file w ++ [m; Text newline].
Proof.
  intros Hl Hne Hk r. subst r. rewrite sep_resolved. cbn [resolve]. rewrite Hl.
  rewrite (write_truthy (file := Sample.recorder_file) (Text line))
    by (destruct line; [contradiction|reflexivity]).
  cbv zeta. rewrite Hk. cbn -[write update_current_line].
  rewrite (write_truthy (file := Sample.recorder_file) (Text newline)) by reflexivity.
  rewrite markup_no_kw. cbn -[update_current_line].
  split; [reflexivity|]. now rewrite <- app_assoc.
Qed.

(** ** A callable as the sink *)

Section CallableSink.
Context {R : PyRuntime} {RC : ReplaceCodec} {C : Type} {callable : Callable C}.

(** X22. On a [WriteFile] sink a [write] whose callable returns normally
    returns normally too ([flush] does nothing), after one call of the
    callable: with the message itself, markup included, when the sink has no
    encoding, and with the message's [encode(encoding, "replace")] bytes
    when it has one. *)
Theorem write_to_callable
    (msg msg' : message) (kw : kwargs) (w : TerminalWriter (WriteFile C)) (c' : C) :
  truthy msg = true ->
  markup (hasmarkup w) msg kw = Returned msg' ->
  (encoding_set (wf_encoding (_file w)) = None ->
   call msg' (_writemethod (_file w)) = (c', Returned tt) ->
   write msg kw w =
   (set_file (mkWriteFile (wf_encoding (_file w)) c') (tracking msg w), Returned tt)) /\
  (forall e s b,
      encoding_set (wf_encoding (_file w)) = Some e ->
      msg' = Text s -> encode_replace s e = Returned b ->
      call (Bytes b) (_writemethod (_file w)) = (c', Returned tt) ->
      write msg kw w =
      (set_file (mkWriteFile (wf_encoding (_file w)) c') (tracking msg w), Returned tt)).
Proof.
  intros Hm Hk. split.
  - intros He Hc.
    rewrite (write_accepted msg msg' kw w (mkWriteFile (wf_encoding (_file w)) c') Hm Hk).
    + reflexivity.
    + cbn [file_write WriteFile_file]. unfold WriteFile_write. now rewrite He, Hc.
  - intros e s b He -> Hb Hc.
    rewrite (write_accepted msg (Text s) kw w (mkWriteFile (wf_encoding (_file w)) c')
               Hm Hk).
    + reflexivity.
    + cbn [file_write WriteFile_file]. unfold WriteFile_write. now rewrite He, Hb, Hc.
Qed.
End CallableSink.

(** ** The markup decision of the constructor *)

Lemma text_eqb_eq (s t : text) : text_eqb s t = true <-> s = t.
Proof.
  revert t. induction s as [|c s IH]; intros [|d t]; cbn [text_eqb];
    try (split; [discriminate|discriminate]); try tauto.
  rewrite andb_true_iff, N.eqb_eq, IH. split.
  - now intros [-> ->].
  - intro H. now injection H.
Qed.

(** X23. A non-empty [PY_COLORS] decides alone whether the writer uses
    markup: the file, [TERM] and the platform no longer matter.  Without it
    (unset or empty), markup needs a file whose [isatty()] is true and a
    [TERM] other than ["dumb"]. *)
Theorem hasmarkup_decision (p : Process) (isatty : option bool) :
  (forall p' isatty' c colors,
      PY_COLORS p = Some (c :: colors) -> PY_COLORS p' = PY_COLORS p ->
      hasmarkup_of p' isatty' = hasmarkup_of p isatty /\
      (hasmarkup_of p isatty = true <->
       c :: colors <> str "0" /\ c :: colors <> str "false")) /\
  (PY_COLORS p = None \/ PY_COLORS p = Some [] ->
   hasmarkup_of p isatty = true ->
   isatty = Some true /\ TERM p <> Some (str "dumb")).
Proof.
  split.
  - intros p' isatty' c colors Hp Hp'. unfold hasmarkup_of. rewrite Hp', Hp.
    split; [reflexivity|].
    rewrite andb_true_iff, !negb_true_iff.
    rewrite <- !not_true_iff_false, !text_eqb_eq. tauto.
  - intros Hp H. unfold hasmarkup_of in H.
    assert (H' : match isatty with
                 | Some true =>
                     negb (match TERM p with
                           | Some t => text_eqb t (str "dumb")
                           | None => false
                           end)
                     && negb (startswith (platform p) (str "java")
                              && text_eqb (os_name p) (str "nt"))
                 | _ => false
                 end = true) by (destruct Hp as [Hp|Hp]; rewrite Hp in H; exact H).
    clear H. destruct isatty as [[|]|]; try discriminate.
    split; [reflexivity|]. apply andb_true_iff in H'. destruct H' as [H' _].
    apply negb_true_iff in H'. destruct (TERM p) as [t|]; [|discriminate].
    intro E. injection E as ->. discriminate.
Qed.

(** ** The further properties at concrete inputs *)

Lemma write_wraps_in_call_order_witness :
  write (R := Sample.runtime) (file := Sample.recorder_file) (Text (str "ok"))
        [("red"%string, true); ("blink"%string, false); ("bold"%string, true)]
        (Sample.new_writer true) =
  emit (R := Sample.runtime) (file := Sample.recorder_file)
       (Text (ESC :: str "[31m" ++ ESC :: str "[1mok" ++ ESC :: str "[0m"))
       (tracking (R := Sample.runtime) (Text (str "ok")) (Sample.new_writer true)).
Proof.
  apply (write_wraps_in_call_order (R := Sample.runtime) (file := Sample.recorder_file)
           (str "ok")
           [("red"%string, true); ("blink"%string, false); ("bold"%string, true)]
           (Sample.new_writer true)).
  - discriminate.
  - reflexivity.
  - reflexivity.
  - discriminate.
Defined.

Lemma write_flags_off_is_plain_witness :
  write (R := Sample.runtime) (file := Sample.recorder_file) (Text (str "ok"))
        [("red"%string, false); ("bold"%string, false)] (Sample.new_writer true) =
  write (R := Sample.runtime) (file := Sample.recorder_file) (Text (str "ok")) []
        (Sample.new_writer true).
Proof.
  apply (write_flags_off_is_plain (R := Sample.runtime) (file := Sample.recorder_file)).
  - reflexivity.
  - intros name value [H|[H|[]]]; now inversion H.
Defined.

Lemma write_bytes_with_markup_raises_witness :
  write (R := Sample.runtime) (file := Sample.recorder_file) (Bytes [Byte.x78])
        [("bold"%string, true)] (Sample.new_writer true) =
  (tracking (R := Sample.runtime) (Bytes [Byte.x78]) (Sample.new_writer true),
   Raised TypeError).
Proof.
  apply (write_bytes_with_markup_raises (R := Sample.runtime)
           (file := Sample.recorder_file)).
  - discriminate.
  - reflexivity.
  - reflexivity.
  - discriminate.
Defined.

Lemma write_accepted_witness :
  write (R := Sample.runtime) (file := Sample.recorder_file) (Text (str "ok")) []
        (Sample.new_writer false) =
  on_file (@file_flush _ Sample.recorder_file)
          (set_file [Text (str "ok")]
                    (tracking (R := Sample.runtime) (Text (str "ok"))
                              (Sample.new_writer false))).
Proof.
  apply (write_accepted (R := Sample.runtime) (file := Sample.recorder_file)
           (Text (str "ok")) (Text (str "ok")) [] (Sample.new_writer false)
           [Text (str "ok")]); reflexivity.
Defined.

Lemma write_sink_error_propagates_witness :
  write (R := Sample.runtime) (file := Sample2.closed_file) (Text (str "ok")) []
        Sample2.closed_writer =
  (set_file tt (tracking (R := Sample.runtime) (Text (str "ok")) Sample2.closed_writer),
   Raised (ValueError "I/O operation on closed file.")).
Proof.
  apply (write_sink_error_propagates (R := Sample.runtime) (file := Sample2.closed_file)
           (Text (str "ok")) (Text (str "ok")) [] Sample2.closed_writer tt).
  - reflexivity.
  - reflexivity.
  - discriminate.
  - reflexivity.
Defined.

Lemma write_reencoded_witness :
  write (R := Sample2.runtime) (file := Sample2.lenient_file) (Text [233%N]) []
        Sample2.lenient_writer =
  (set_file {| Sample2.received := [Bytes [Byte.xe9]] |}
            (tracking (R := Sample2.runtime) (Text [233%N]) Sample2.lenient_writer),
   Returned tt).
Proof.
  apply (write_reencoded (R := Sample2.runtime) (file := Sample2.lenient_file)
           (Text [233%N]) (Text [233%N]) [] Sample2.lenient_writer
           {| Sample2.received := [] |} {| Sample2.received := [Bytes [Byte.xe9]] |}
           {| Sample2.received := [Bytes [Byte.xe9]] |} "latin-1"%string [Byte.xe9]);
    reflexivity.
Defined.

Lemma write_reencoding_error_propagates_witness :
  write (R := Sample.runtime) (file := Sample2.lenient_file) (Text [233%N]) []
        Sample2.lenient_writer =
  (set_file {| Sample2.received := [] |}
            (tracking (R := Sample.runtime) (Text [233%N]) Sample2.lenient_writer),
   Raised LookupError).
Proof.
  apply (write_reencoding_error_propagates (R := Sample.runtime)
           (file := Sample2.lenient_file) (Text [233%N]) (Text [233%N]) []
           Sample2.lenient_writer {| Sample2.received := [] |} "latin-1"%string
           LookupError).
  - reflexivity.
  - reflexivity.
  - reflexivity.
  - reflexivity.
  - discriminate.
  - reflexivity.
Defined.

Lemma line_counters_stay_nonnegative_witness :
  let cl := _current_line
              (fst (sep (R := Sample.runtime) (file := Sample.recorder_file) Sample.posix
                        (str "=") None (Some 20) [("fuchsia"%string, true)]
                        (Sample.new_writer true))) in
  0 <= chars cl /\ 0 <= width cl.
Proof.
  apply (line_counters_stay_nonnegative (R := Sample.runtime)
           (file := Sample.recorder_file) Sample.posix (Sample.new_writer true)).
  simpl. lia.
Defined.

Lemma write_keeps_width_between_witness :
  let cl := _current_line
              (fst (write (R := Sample.runtime) (file := Sample.recorder_file)
                          (Text [97%N; 28450%N]) [] (Sample.new_writer false))) in
  chars cl <= width cl <= 2 * chars cl.
Proof.
  apply (write_keeps_width_between (R := Sample.runtime) (file := Sample.recorder_file)
           (Text [97%N; 28450%N]) [] (Sample.new_writer false)).
  - reflexivity.
  - simpl. lia.
Defined.

Lemma write_terminated_text_resets_witness :
  _current_line
    (fst (write (R := Sample.runtime) (file := Sample.ascii_file)
                (Text ([233%N] ++ newline)) [] Sample.ascii_writer)) =
  {| chars := 0; width := 0 |}.
Proof.
  apply (write_terminated_text_resets (R := Sample.runtime) (file := Sample.ascii_file)
           [233%N] [] Sample.ascii_writer).
  reflexivity.
Defined.

Lemma sep_empty_separator_raises_witness :
  sep (R := Sample.runtime) (file := Sample.recorder_file) Sample.posix []
      (Some (str "X")) None [] (Sample.new_writer false) =
  (Sample.new_writer false, Raised ZeroDivisionError).
Proof.
  apply (sep_empty_separator_raises (R := Sample.runtime) (file := Sample.recorder_file)
           Sample.posix (Some (str "X")) None [] (Sample.new_writer false) 80).
  reflexivity.
Defined.

Lemma sep_resolves_width_witness :
  sep (R := Sample.runtime) (file := Sample.recorder_file) Sample.posix (str "-") None
      None [] (Sample.new_writer false) =
  sep (R := Sample.runtime) (file := Sample.recorder_file) Sample.posix (str "-") None
      (Some 80) [] (Sample.new_writer false).
Proof.
  apply (sep_resolves_width (R := Sample.runtime) (file := Sample.recorder_file)
           Sample.posix (str "-") None [] (Sample.new_writer false)).
  reflexivity.
Defined.

Lemma sep_unknown_markup_witness :
  sep (R := Sample.runtime) (file := Sample.recorder_file) Sample.posix (str "-") None
      (Some 3) [("fuchsia"%string, true)] (Sample.new_writer true) =
  (tracking (R := Sample.runtime) (Text (str "---")) (Sample.new_writer true),
   Raised (ValueError "unknown markup: 'fuchsia'")) /\
  sep (R := Sample.runtime) (file := Sample.recorder_file) Sample.posix (str "-") None
      (Some 0) [("fuchsia"%string, true)] (Sample.new_writer true) =
  write (R := Sample.runtime) (file := Sample.recorder_file) (Text newline) []
        (Sample.new_writer true).
Proof.
  split.
  - apply (sep_unknown_markup (R := Sample.runtime) (file := Sample.recorder_file)
             Sample.posix (str "-") None (Some 3) [("fuchsia"%string, true)]
             (Sample.new_writer true) 3 (str "---") "fuchsia"%string);
      try reflexivity. discriminate.
  - apply (sep_unknown_markup (R := Sample.runtime) (file := Sample.recorder_file)
             Sample.posix (str "-") None (Some 0) [("fuchsia"%string, true)]
             (Sample.new_writer true) 0 [] "fuchsia"%string); reflexivity.
Defined.

Lemma sep_line_fills_width_witness :
  (exists line, sep_line Sample.posix (str "_ ") None 9 = Returned line /\
                usable Sample.posix 9 - len (str "_ ") < len line <= usable Sample.posix 9) /\
  (exists line, sep_line Sample.windows (str "=-") (Some (str "hello")) 60 = Returned line /\
                usable Sample.windows 60 - 2 * len (str "=-") < len line
                <= usable Sample.windows 60).
Proof.
  split.
  - apply (sep_line_fills_width Sample.posix (str "_ ") 9); [discriminate|].
    vm_compute. discriminate.
  - apply (sep_line_fills_width Sample.windows (str "=-") 60); [discriminate|].
    vm_compute. discriminate.
Defined.

Lemma sep_single_character_exact_witness :
  exists line, sep_line Sample.posix (str "-") (Some (str "hello")) 60 = Returned line /\
               len line = usable Sample.posix 60.
Proof.
  apply (sep_single_character_exact Sample.posix 45%N 60).
  - reflexivity.
  - vm_compute. discriminate.
Defined.

Lemma sep_rule_only_separator_witness :
  sep_line Sample.posix (str "_ ") None 9 = Returned (str "_ _ _ _ _") /\
  In 32%N (str "_ ").
Proof.
  assert (E : sep_line Sample.posix (str "_ ") None 9 = Returned (str "_ _ _ _ _"))
    by reflexivity.
  split; [exact E|].
  apply (sep_rule_only_separator Sample.posix (str "_ ") (str "_ _ _ _ _") 9 E 32%N).
  simpl. tauto.
Defined.

Lemma sep_title_line_grows_witness :
  exists line line',
    sep_line Sample.posix (str "-") (Some (str "X")) 10 = Returned line /\
    sep_line Sample.posix (str "-") (Some (str "X")) 11 = Returned line' /\
    len line <= len line'.
Proof.
  apply (sep_title_line_grows Sample.posix (str "-") (str "X") 10 11).
  - discriminate.
  - lia.
Defined.

Lemma sep_styles_line_only_witness :
  let r := sep (R := Sample.runtime) (file := Sample.recorder_file) Sample.posix
               (str "=") None (Some 3) [("bold"%string, true)] (Sample.new_writer true) in
  snd r = Returned tt /\
  _file (fst r) =
  _file (Sample.new_writer true) ++
  [Text (ESC :: str "[1m===" ++ ESC :: str "[0m"); Text newline].
Proof.
  apply (sep_styles_line_only (R := Sample.runtime) Sample.posix (str "=") None 3
           [("bold"%string, true)] (str "===")); try reflexivity. discriminate.
Defined.

Lemma write_to_callable_witness :
  write (R := Sample.runtime) (file := WriteFile_file (RC := Sample2.replace_codec)
                               (callable := Sample2.append_callable))
        (Text [233%N]) [] (Sample2.callable_writer None false) =
  (set_file (mkWriteFile None [Text [233%N]])
            (tracking (R := Sample.runtime) (Text [233%N])
                      (Sample2.callable_writer None false)),
   Returned tt) /\
  write (R := Sample.runtime) (file := WriteFile_file (RC := Sample2.replace_codec)
                               (callable := Sample2.append_callable))
        (Text [233%N]) [] (Sample2.callable_writer (Some "ascii"%string) false) =
  (set_file (mkWriteFile (Some "ascii"%string) [Bytes [Byte.x3f]])
            (tracking (R := Sample.runtime) (Text [233%N])
                      (Sample2.callable_writer (Some "ascii"%string) false)),
   Returned tt).
Proof.
  split.
  - apply (write_to_callable (R := Sample.runtime) (RC := Sample2.replace_codec)
             (callable := Sample2.append_callable)
             (Text [233%N]) (Text [233%N]) [] (Sample2.callable_writer None false));
      reflexivity.
  - refine (proj2 (write_to_callable (R := Sample.runtime) (RC := Sample2.replace_codec)
                     (callable := Sample2.append_callable)
                     (Text [233%N]) (Text [233%N]) []
                     (Sample2.callable_writer (Some "ascii"%string) false)
                     [Bytes [Byte.x3f]] eq_refl eq_refl)
                  "ascii"%string [233%N] [Byte.x3f] _ _ _ _); reflexivity.
Defined.

Lemma hasmarkup_decision_witness :
  hasmarkup_of {| PY_COLORS := Some (str "0"); TERM := Some (str "xterm");
                  platform := str "linux"; os_name := str "posix" |} (Some true) =
  hasmarkup_of {| PY_COLORS := Some (str "0"); TERM := Some (str "dumb");
                  platform := str "win32"; os_name := str "nt" |} None /\
  (Some true = Some true /\ Some (str "xterm") <> Some (str "dumb")).
Proof.
  split.
  - refine (proj1 (proj1 (hasmarkup_decision
             {| PY_COLORS := Some (str "0"); TERM := Some (str "dumb");
                platform := str "win32"; os_name := str "nt" |} None)
             {| PY_COLORS := Some (str "0"); TERM := Some (str "xterm");
                platform := str "linux"; os_name := str "posix" |} (Some true)
             48%N [] _ _)); reflexivity.
  - refine (proj2 (hasmarkup_decision
             {| PY_COLORS := None; TERM := Some (str "xterm");
                platform := str "linux"; os_name := str "posix" |} (Some true)) _ _).
    + left. reflexivity.
    + reflexivity.
Defined.
